(** * ddht, Discovery v5.1 client core: a shallow embedding

    The development follows the Python sources

      - [ddht/v5_1/messages.py]   the message classes and [v51_registry],
      - [ddht/v5_1/envelope.py]   [PacketDecoder] and [PacketEncoder],
      - [ddht/v5_1/client.py]     the [Client] message API and the
                                  request/response API.

    Python integers are [Z], [bytes] values are lists of [Byte.byte], a
    coroutine is a function from the state it can touch to an outcome and
    the state it leaves behind, and a raised exception is an outcome of its
    own, so that [with] blocks and [try]/[except] can be followed on every
    path. *)

From Stdlib Require Import ZArith Lia.
From Stdlib.Strings Require Import Byte.
From stdpp Require Import base option list gmap strings.

Local Open Scope string_scope.
Local Open Scope list_scope.
Local Open Scope Z_scope.

(* ===================================================================== *)
(** * Python values, exceptions and outcomes *)
(* ===================================================================== *)

Definition bytes : Type := list byte.

#[global] Instance byte_eq_dec : EqDecision byte := Byte.byte_eq_dec.

#[global] Program Instance byte_countable : Countable byte :=
  {| encode b := encode (Byte.to_N b);
     decode p := n ← decode p; Byte.of_N n |}.
Next Obligation.
  intros b. simpl. rewrite decode_encode. simpl. apply Byte.of_to_N.
Qed.

(** An exception instance: its class and the message it was built with.
    [except C] matches on the class. *)
Record PyException : Type := mkException {
  exc_class : string;
  exc_args  : string;
}.

#[global] Instance PyException_eq_dec : EqDecision PyException.
Proof. solve_decision. Defined.

(** [raise Exception("...")] *)
Definition Exception (msg : string) : PyException := mkException "Exception" msg.
(** [eth_utils.ValidationError] *)
Definition ValidationError (msg : string) : PyException :=
  mkException "ValidationError" msg.
(** [trio.TooSlowError], what [trio.fail_after] raises on expiry. *)
Definition TooSlowError : PyException := mkException "TooSlowError" "".
(** attribute access on an object that lacks the attribute *)
Definition AttributeError (attr : string) : PyException :=
  mkException "AttributeError" attr.

Definition isinstance (e : PyException) (cls : string) : bool :=
  bool_decide (exc_class e = cls).

Inductive Outcome (A : Type) : Type :=
| Return (a : A)
| Raise (e : PyException).
Arguments Return {A} a.
Arguments Raise {A} e.

(** The operation ended by raising an exception of class [cls]. *)
Definition fails_with {A} (cls : string) (o : Outcome A) : Prop :=
  ∃ e, o = Raise e ∧ exc_class e = cls.

(* ===================================================================== *)
(** * Data model *)
(* ===================================================================== *)

Definition NodeID : Type := bytes.

(** [ddht.endpoint.Endpoint], a named tuple. *)
Record Endpoint : Type := mkEndpoint {
  ip_address : bytes;
  port : Z;
}.

#[global] Instance Endpoint_eq_dec : EqDecision Endpoint.
Proof. solve_decision. Defined.

(** Modelled from the spec: the class [ENR] of [ddht.enr], whose source is
    not among the files followed here.
    The spec treats a record as an opaque, validated value with a sequence
    number and a node id; the client needs in addition the RLP encoding,
    whose length is what [partition_enrs] measures. *)
Record ENR : Type := mkENR {
  sequence_number : Z;
  node_id : NodeID;
  rlp_encode : bytes;
}.

#[global] Instance ENR_eq_dec : EqDecision ENR.
Proof. solve_decision. Defined.

(* ===================================================================== *)
(** * ddht/v5_1/messages.py *)
(* ===================================================================== *)

Module Messages.

(** The [rlp.sedes] objects the field declarations use. *)
Inductive Sedes : Type :=
| big_endian_int
| binary
| Binary_fixed_length (n : Z)
| ip_address_sedes
| CountableList (element : Sedes)
| ENR_sedes                     (* the class [ENR] used as a sedes *)
| ENRSedes.

#[global] Instance Sedes_eq_dec : EqDecision Sedes.
Proof. solve_decision. Defined.

(** Modelled from the spec: [TOPIC_HASH_SIZE] of [ddht.v5.constants] is
    not among the files followed here; the spec gives 32. *)
Definition TOPIC_HASH_SIZE : Z := 32.

Definition topic_sedes : Sedes := Binary_fixed_length TOPIC_HASH_SIZE.

(** A subclass of [BaseMessage]: its name and its two class attributes. *)
Record MessageClass : Type := mkMessageClass {
  class_name : string;
  message_type : Z;
  fields : list (string * Sedes);
}.

#[global] Instance MessageClass_eq_dec : EqDecision MessageClass.
Proof. solve_decision. Defined.

Definition PingMessage : MessageClass :=
  mkMessageClass "PingMessage" 1
    [("request_id", big_endian_int); ("enr_seq", big_endian_int)].

Definition PongMessage : MessageClass :=
  mkMessageClass "PongMessage" 2
    [("request_id", big_endian_int);
     ("enr_seq", big_endian_int);
     ("packet_ip", ip_address_sedes);
     ("packet_port", big_endian_int)].

Definition FindNodeMessage : MessageClass :=
  mkMessageClass "FindNodeMessage" 3
    [("request_id", big_endian_int); ("distance", big_endian_int)].

Definition NodesMessage : MessageClass :=
  mkMessageClass "NodesMessage" 4
    [("request_id", big_endian_int);
     ("total", big_endian_int);
     ("enrs", CountableList ENR_sedes)].

Definition TalkReqMessage : MessageClass :=
  mkMessageClass "TalkReqMessage" 5
    [("request_id", big_endian_int); ("protocol", binary); ("request", binary)].

Definition TalkRespMessage : MessageClass :=
  mkMessageClass "TalkRespMessage" 6
    [("request_id", big_endian_int); ("response", binary)].

Definition RegTopicMessage : MessageClass :=
  mkMessageClass "RegTopicMessage" 7
    [("request_id", big_endian_int);
     ("topic", topic_sedes);
     ("enr", ENRSedes);
     ("ticket", binary)].

Definition TicketMessage : MessageClass :=
  mkMessageClass "TicketMessage" 8
    [("request_id", big_endian_int);
     ("ticket", binary);
     ("wait_time", big_endian_int)].

Definition RegConfirmationMessage : MessageClass :=
  mkMessageClass "RegConfirmationMessage" 9
    [("request_id", big_endian_int); ("topic", binary)].

Definition TopicQueryMessage : MessageClass :=
  mkMessageClass "TopicQueryMessage" 10
    [("request_id", big_endian_int); ("topic", topic_sedes)].

(** Modelled from the spec: [MessageTypeRegistry] of
    [ddht.message_registry], not among the files followed here.  The spec
    describes it as the
    mapping of message-type ids to variants; [register] is the class
    decorator that files a class under its [message_type], and an id is
    filed once. *)
Definition register (cls : MessageClass) (registry : gmap Z MessageClass)
  : option (gmap Z MessageClass) :=
  match registry !! message_type cls with
  | Some _ => None
  | None => Some (<[message_type cls := cls]> registry)
  end.

(** The decorators run top to bottom as the module is imported. *)
Definition v51_registry_built : option (gmap Z MessageClass) :=
  r ← register PingMessage ∅;
  r ← register PongMessage r;
  r ← register FindNodeMessage r;
  r ← register NodesMessage r;
  r ← register TalkReqMessage r;
  r ← register TalkRespMessage r;
  r ← register RegTopicMessage r;
  r ← register TicketMessage r;
  r ← register RegConfirmationMessage r;
  register TopicQueryMessage r.

Definition v51_registry : gmap Z MessageClass :=
  default ∅ v51_registry_built.

(** ** The wire-format table of the specification

    This second definition follows the words of the specification, not
    the source: the table "Message wire formats", one row per variant,
    a field written [name], [name(n)] for a fixed length, or [name[]]
    for a list. *)
Inductive FieldEntry : Type :=
| Plain (name : string)
| Fixed (name : string) (len : Z)
| Listed (name : string).

#[global] Instance FieldEntry_eq_dec : EqDecision FieldEntry.
Proof. solve_decision. Defined.

Definition spec_wire_formats : list (string * Z * list FieldEntry) :=
  [ ("Ping", 1, [Plain "request_id"; Plain "enr_seq"]);
    ("Pong", 2, [Plain "request_id"; Plain "enr_seq"; Plain "packet_ip";
                 Plain "packet_port"]);
    ("FindNode", 3, [Plain "request_id"; Listed "distances"]);
    ("FoundNodes", 4, [Plain "request_id"; Plain "total"; Listed "enrs"]);
    ("TalkRequest", 5, [Plain "request_id"; Plain "protocol"; Plain "request"]);
    ("TalkResponse", 6, [Plain "request_id"; Plain "response"]);
    ("RegisterTopic", 7, [Plain "request_id"; Fixed "topic" 32; Plain "enr";
                          Plain "ticket"]);
    ("Ticket", 8, [Plain "request_id"; Plain "ticket"; Plain "wait_time"]);
    ("RegistrationConfirmation", 9, [Plain "request_id"; Plain "topic"]);
    ("TopicQuery", 10, [Plain "request_id"; Fixed "topic" 32]) ].

(** How a declared field reads in the notation of that table. *)
Definition field_entry (f : string * Sedes) : FieldEntry :=
  match f.2 with
  | CountableList _ => Listed f.1
  | Binary_fixed_length n => Fixed f.1 n
  | _ => Plain f.1
  end.

(** A row of the table agrees with the registry. *)
Definition row_agrees (row : string * Z * list FieldEntry) : bool :=
  match v51_registry !! row.1.2 with
  | Some cls => bool_decide (field_entry <$> fields cls = row.2)
  | None => false
  end.

End Messages.

(* ===================================================================== *)
(** * Messages as the client builds them *)
(* ===================================================================== *)

(** [client.py] builds every message positionally,
    [PongMessage(request_id, enr_seq, ip, port)] and so on; one constructor
    per class it imports from [ddht.v5_1.messages], arguments in the order
    of the calls. *)
Inductive Message : Type :=
| PingMessage (request_id enr_seq : Z)
| PongMessage (request_id enr_seq : Z) (packet_ip : bytes) (packet_port : Z)
| FindNodeMessage (request_id : Z) (distances : list Z)
| FoundNodesMessage (request_id total : Z) (enrs : list ENR)
| TalkRequestMessage (request_id : Z) (protocol request : bytes)
| TalkResponseMessage (request_id : Z) (response : bytes)
| RegisterTopicMessage (request_id : Z) (topic : bytes) (enr : ENR) (ticket : bytes)
| TicketMessage (request_id : Z) (ticket : bytes) (wait_time : Z)
| RegistrationConfirmationMessage (request_id : Z) (topic : bytes)
| TopicQueryMessage (request_id : Z) (topic : bytes).

#[global] Instance Message_eq_dec : EqDecision Message.
Proof. solve_decision. Defined.

(** [message.request_id], the first field of every class. *)
Definition request_id_of (m : Message) : Z :=
  match m with
  | PingMessage r _ | PongMessage r _ _ _ | FindNodeMessage r _
  | FoundNodesMessage r _ _ | TalkRequestMessage r _ _
  | TalkResponseMessage r _ | RegisterTopicMessage r _ _ _
  | TicketMessage r _ _ | RegistrationConfirmationMessage r _
  | TopicQueryMessage r _ => r
  end.

(** [message.total]: only a [FoundNodesMessage] has the attribute. *)
Definition total_of (m : Message) : Outcome Z :=
  match m with
  | FoundNodesMessage _ total _ => Return total
  | _ => Raise (AttributeError "total")
  end.

(** [message.enrs] *)
Definition enrs_of (m : Message) : list ENR :=
  match m with
  | FoundNodesMessage _ _ enrs => enrs
  | _ => []
  end.

(** [ddht.base_message]: the two named tuples around a message. *)
Record AnyOutboundMessage : Type := mkOutbound {
  out_message : Message;
  receiver_endpoint : Endpoint;
  receiver_node_id : NodeID;
}.

Record InboundMessage : Type := mkInbound {
  message : Message;
  sender_endpoint : Endpoint;
  sender_node_id : NodeID;
}.

#[global] Instance AnyOutboundMessage_eq_dec : EqDecision AnyOutboundMessage.
Proof. solve_decision. Defined.
#[global] Instance InboundMessage_eq_dec : EqDecision InboundMessage.
Proof. solve_decision. Defined.

(* ===================================================================== *)
(** * The state a client coroutine runs in *)
(* ===================================================================== *)

(** A response subscription is registered under the peer, the request id
    and the name of the response class it was opened for. *)
Definition SubscriptionKey : Type := NodeID * Z * string.

(** What the methods of [Client] can reach:
    - the local record of [self.enr_manager],
    - the dispatcher: its set of reserved request ids, its live response
      subscriptions and the outbound message channel it writes to,
    - the clock of the event loop, in seconds,
    - the messages the dispatcher is going to hand to the subscription the
      running operation opens, each with the instant it arrives, oldest
      first. *)
Record World : Type := mkWorld {
  enr_manager_enr : ENR;
  reserved_request_ids : gset (NodeID * Z);
  subscriptions : gset SubscriptionKey;
  outbound_message_channel : list AnyOutboundMessage;
  clock : Z;
  deliveries : list (Z * InboundMessage);
}.

Definition set_reserved (f : gset (NodeID * Z) → gset (NodeID * Z)) (w : World) : World :=
  mkWorld (enr_manager_enr w) (f (reserved_request_ids w)) (subscriptions w)
          (outbound_message_channel w) (clock w) (deliveries w).

Definition set_subscriptions (f : gset SubscriptionKey → gset SubscriptionKey)
    (w : World) : World :=
  mkWorld (enr_manager_enr w) (reserved_request_ids w) (f (subscriptions w))
          (outbound_message_channel w) (clock w) (deliveries w).

Definition set_outbound (f : list AnyOutboundMessage → list AnyOutboundMessage)
    (w : World) : World :=
  mkWorld (enr_manager_enr w) (reserved_request_ids w) (subscriptions w)
          (f (outbound_message_channel w)) (clock w) (deliveries w).

Definition set_clock_deliveries (t : Z) (q : list (Z * InboundMessage))
    (w : World) : World :=
  mkWorld (enr_manager_enr w) (reserved_request_ids w) (subscriptions w)
          (outbound_message_channel w) t q.

(** A coroutine: run from a world, it ends with an outcome and a world. *)
Definition Coro (A : Type) : Type := World → Outcome A * World.

Definition ret {A} (a : A) : Coro A := λ w, (Return a, w).
Definition raise {A} (e : PyException) : Coro A := λ w, (Raise e, w).
Definition bind {A B} (m : Coro A) (k : A → Coro B) : Coro B :=
  λ w, match m w with
       | (Return a, w1) => k a w1
       | (Raise e, w1) => (Raise e, w1)
       end.
Definition lift {A} (o : Outcome A) : Coro A := λ w, (o, w).
Definition modify (f : World → World) : Coro unit := λ w, (Return tt, f w).

#[global] Instance Coro_ret : MRet Coro := @ret.
#[global] Instance Coro_bind : MBind Coro := λ A B k m, bind m k.

(** A context manager: what [__enter__] runs and yields, and what
    [__exit__] undoes.  [with_ cm body] is the [with] statement: the exit
    runs on every way out of the body, and the outcome of the body is the
    outcome of the statement. *)
Record ContextManager (A : Type) : Type := mkContext {
  enter : Coro A;
  exit : A → World → World;
}.
Arguments mkContext {A} enter exit.
Arguments enter {A} c.
Arguments exit {A} c.

Definition with_ {A B} (cm : ContextManager A) (body : A → Coro B) : Coro B :=
  λ w, match enter cm w with
       | (Raise e, w1) => (Raise e, w1)
       | (Return a, w1) =>
           let '(o, w2) := body a w1 in (o, exit cm a w2)
       end.

(** [contextlib.nullcontext(value)] *)
Definition nullcontext {A} (value : A) : ContextManager A :=
  mkContext (ret value) (λ _ w, w).

(** [for x in xs: body(x)] *)
Fixpoint for_each {A} (xs : list A) (body : A → Coro unit) : Coro unit :=
  match xs with
  | [] => ret tt
  | x :: xs' => body x;; for_each xs' body
  end.

(* ===================================================================== *)
(** * Collaborators of the client outside the files followed here *)
(* ===================================================================== *)

Module Constants.
(** Modelled from the spec: [ddht/v5_1/constants.py] is missing; the
    spec gives [REQUEST_RESPONSE_TIMEOUT = 10s] and
    [FOUND_NODES_MAX_PAYLOAD_SIZE = 1200 bytes]. *)
Definition REQUEST_RESPONSE_TIMEOUT : Z := 10.
Definition FOUND_NODES_MAX_PAYLOAD_SIZE : Z := 1200.
End Constants.

(** [len(rlp.encode(enr))] *)
Definition enr_size (enr : ENR) : Z := Z.of_nat (length (rlp_encode enr)).

(** The batch under construction is closed when the next record would take
    it over [max_payload_size]; a record always goes into some batch. *)
Fixpoint partition_from (max_payload_size : Z) (batch : list ENR) (batch_size : Z)
    (enrs : list ENR) : list (list ENR) :=
  match enrs with
  | [] => match batch with [] => [] | _ => [batch] end
  | enr :: rest =>
      match batch with
      | [] => partition_from max_payload_size [enr] (enr_size enr) rest
      | _ =>
          if bool_decide (batch_size + enr_size enr ≤ max_payload_size)
          then partition_from max_payload_size (batch ++ [enr])
                              (batch_size + enr_size enr) rest
          else batch :: partition_from max_payload_size [enr] (enr_size enr) rest
      end
  end.

(** Modelled from the spec: [partition_enrs] of [ddht.enr] is missing.
    The spec has it partition the sequence "into batches each fitting under"
    the maximum payload size, in order and with nothing left out (the
    batches concatenate to the input), and gives the empty sequence a
    batch of its own: "Empty input yields one message with [total = 1] and
    an empty ENR list", where [send_found_nodes] sends one message per
    batch and has no case of its own for the empty sequence. *)
Definition partition_enrs (enrs : list ENR) (max_payload_size : Z) : list (list ENR) :=
  match enrs with
  | [] => [[]]
  | _ => partition_from max_payload_size [] 0 enrs
  end.

Module Dispatcher.
Section Dispatcher.

(** How the dispatcher picks an id for a peer given what is reserved; the
    spec asks for one that is not reserved (a random draw), and nothing
    below depends on which. *)
Variable get_free_request_id : NodeID → gset (NodeID * Z) → Z.

(** Modelled from the spec: [Dispatcher] of [ddht/v5_1/dispatcher.py] is
    missing.  [reserve_request_id(peer_node_id) -> scoped<int>]:
    "Returns an integer not currently reserved for that peer. Release is
    scoped to the caller's lifetime." *)
Definition reserve_request_id (node_id : NodeID) : ContextManager Z :=
  mkContext
    (λ w, let request_id := get_free_request_id node_id (reserved_request_ids w) in
          (Return request_id,
           set_reserved (λ s, {[ (node_id, request_id) ]} ∪ s) w))
    (λ request_id, set_reserved (λ s, s ∖ {[ (node_id, request_id) ]})).

(** Modelled from the spec: "[send_message(OutboundMessage)] —
    fire-and-forget; pushes onto the outbound message channel". *)
Definition send_message (message : AnyOutboundMessage) : Coro unit :=
  modify (set_outbound (λ q, q ++ [message])).

(** Modelled from the spec: "[subscribe_request(OutboundMessage,
    expected_response_type) -> scoped<Subscription>]. Sends the outbound
    message and yields a subscription [...] Exiting the scope unregisters
    the subscription". *)
Definition subscribe_request (request : AnyOutboundMessage)
    (response_message_type : string) : ContextManager SubscriptionKey :=
  let key := (receiver_node_id request, request_id_of (out_message request),
              response_message_type) in
  mkContext
    (modify (set_subscriptions (λ s, {[ key ]} ∪ s));;
     send_message request;;
     mret key)
    (λ _, set_subscriptions (λ s, s ∖ {[ key ]})).

End Dispatcher.
End Dispatcher.

Module Trio.

(** [with trio.fail_after(seconds): body]: the body runs against the
    deadline [now + seconds], fixed once on entry. *)
Definition fail_after {A} (seconds : Z) (body : Z → Coro A) : Coro A :=
  λ w, body (clock w + seconds) w.

(** [await subscription.receive()] under a deadline.  The next message
    for the subscription is handed over if it arrives by the deadline and
    the clock moves to its arrival; otherwise the task stays parked until
    the deadline and [trio.TooSlowError] comes out of the scope. *)
Definition receive (subscription : SubscriptionKey) (deadline : Z)
  : Coro InboundMessage :=
  λ w, match deliveries w with
       | (t, m) :: rest =>
           if bool_decide (t ≤ deadline)
           then (Return m, set_clock_deliveries (Z.max (clock w) t) rest w)
           else (Raise TooSlowError,
                 set_clock_deliveries deadline (deliveries w) w)
       | [] => (Raise TooSlowError, set_clock_deliveries deadline [] w)
       end.

End Trio.

(* ===================================================================== *)
(** * ddht/v5_1/client.py *)
(* ===================================================================== *)

Module Client.
Section Client.

Variable get_free_request_id : NodeID → gset (NodeID * Z) → Z.

(** [self.enr_manager.enr.sequence_number] *)
Definition local_sequence_number : Coro Z :=
  λ w, (Return (sequence_number (enr_manager_enr w)), w).

(** ** Message API *)

(** The generator-based context manager: it enters the context it chose,
    yields what that one yields and leaves it when it is left. *)
Definition _get_request_id (node_id : NodeID) (request_id : option Z)
  : ContextManager Z :=
  let request_id_context :=
    match request_id with
    | None => Dispatcher.reserve_request_id get_free_request_id node_id
    | Some request_id => nullcontext request_id
    end in
  mkContext (enter request_id_context) (exit request_id_context).

Definition send_ping (endpoint : Endpoint) (node_id : NodeID)
    (request_id : option Z) : Coro Z :=
  with_ (_get_request_id node_id request_id) (λ message_request_id,
    enr_seq ← local_sequence_number;
    let message :=
      mkOutbound (PingMessage message_request_id enr_seq) endpoint node_id in
    Dispatcher.send_message message;;
    mret message_request_id).

Definition send_pong (endpoint : Endpoint) (node_id : NodeID)
    (request_id : Z) : Coro unit :=
  enr_seq ← local_sequence_number;
  let message :=
    mkOutbound
      (PongMessage request_id enr_seq (ip_address endpoint) (port endpoint))
      endpoint node_id in
  Dispatcher.send_message message.

Definition send_find_nodes (endpoint : Endpoint) (node_id : NodeID)
    (distances : list Z) (request_id : option Z) : Coro Z :=
  with_ (_get_request_id node_id request_id) (λ message_request_id,
    let message :=
      mkOutbound (FindNodeMessage message_request_id distances) endpoint node_id in
    Dispatcher.send_message message;;
    mret message_request_id).

Definition send_found_nodes (endpoint : Endpoint) (node_id : NodeID)
    (enrs : list ENR) (request_id : Z) : Coro Z :=
  let enr_batches := partition_enrs enrs Constants.FOUND_NODES_MAX_PAYLOAD_SIZE in
  let num_batches := Z.of_nat (length enr_batches) in
  for_each enr_batches (λ batch,
    let message :=
      mkOutbound (FoundNodesMessage request_id num_batches batch) endpoint node_id in
    Dispatcher.send_message message);;
  mret num_batches.

Definition send_talk_request (endpoint : Endpoint) (node_id : NodeID)
    (protocol request : bytes) (request_id : option Z) : Coro Z :=
  with_ (_get_request_id node_id request_id) (λ message_request_id,
    let message :=
      mkOutbound (TalkRequestMessage message_request_id protocol request)
                 endpoint node_id in
    Dispatcher.send_message message;;
    mret message_request_id).

Definition send_talk_response (endpoint : Endpoint) (node_id : NodeID)
    (response : bytes) (request_id : Z) : Coro unit :=
  let message :=
    mkOutbound (TalkResponseMessage request_id response) endpoint node_id in
  Dispatcher.send_message message.

Definition send_register_topic (endpoint : Endpoint) (node_id : NodeID)
    (topic : bytes) (enr : ENR) (ticket : bytes) (request_id : option Z)
  : Coro Z :=
  with_ (_get_request_id node_id request_id) (λ message_request_id,
    let message :=
      mkOutbound (RegisterTopicMessage message_request_id topic enr ticket)
                 endpoint node_id in
    Dispatcher.send_message message;;
    mret message_request_id).

Definition send_ticket (endpoint : Endpoint) (node_id : NodeID)
    (ticket : bytes) (wait_time : Z) (request_id : Z) : Coro unit :=
  let message :=
    mkOutbound (TicketMessage request_id ticket wait_time) endpoint node_id in
  Dispatcher.send_message message.

Definition send_registration_confirmation (endpoint : Endpoint)
    (node_id : NodeID) (topic : bytes) (request_id : Z) : Coro unit :=
  let message :=
    mkOutbound (RegistrationConfirmationMessage request_id topic)
               endpoint node_id in
  Dispatcher.send_message message.

Definition send_topic_query (endpoint : Endpoint) (node_id : NodeID)
    (topic : bytes) (request_id : option Z) : Coro Z :=
  with_ (_get_request_id node_id request_id) (λ message_request_id,
    let message :=
      mkOutbound (TopicQueryMessage message_request_id topic) endpoint node_id in
    Dispatcher.send_message message;;
    mret message_request_id).

(** ** Request/Response API *)

Definition ping (endpoint : Endpoint) (node_id : NodeID) : Coro InboundMessage :=
  with_ (_get_request_id node_id None) (λ request_id,
    enr_seq ← local_sequence_number;
    let request := mkOutbound (PingMessage request_id enr_seq) endpoint node_id in
    with_ (Dispatcher.subscribe_request request "PongMessage") (λ subscription,
      Trio.fail_after Constants.REQUEST_RESPONSE_TIMEOUT (λ deadline,
        Trio.receive subscription deadline))).

(** [for _ in range(n): tail_responses.append(await subscription.receive())] *)
Fixpoint receive_tail (subscription : SubscriptionKey) (deadline : Z) (n : nat)
    (tail_responses : list InboundMessage) : Coro (list InboundMessage) :=
  match n with
  | O => mret tail_responses
  | S n' =>
      response ← Trio.receive subscription deadline;
      receive_tail subscription deadline n' (tail_responses ++ [response])
  end.

(** The block under [trio.fail_after] in [find_nodes]. *)
Definition find_nodes_responses (subscription : SubscriptionKey) (deadline : Z)
  : Coro (list InboundMessage) :=
  head_response ← Trio.receive subscription deadline;
  total ← lift (total_of (message head_response));
  if bool_decide (total = 1) then
    mret [head_response]
  else if bool_decide (total > 1) then
    tail_responses ←
      receive_tail subscription deadline (Z.to_nat (total - 1)) [];
    mret ([head_response] ++ tail_responses)
  else
    raise (Exception "Invalid `total` counter in response").

Definition find_nodes (endpoint : Endpoint) (node_id : NodeID)
    (distances : list Z) : Coro (list InboundMessage) :=
  with_ (_get_request_id node_id None) (λ request_id,
    let request :=
      mkOutbound (FindNodeMessage request_id distances) endpoint node_id in
    with_ (Dispatcher.subscribe_request request "FoundNodesMessage")
      (λ subscription,
        Trio.fail_after Constants.REQUEST_RESPONSE_TIMEOUT
          (find_nodes_responses subscription))).

End Client.
End Client.

(* ===================================================================== *)
(** * ddht/v5_1/envelope.py *)
(* ===================================================================== *)

Module Envelope.
Section Envelope.

(** [AnyPacket] and its codec live in [ddht/v5_1/packets.py], which is not
    among the files followed here: the packet type, [decode_packet],
    [packet.to_wire_bytes()] and
    the class name the log lines print are taken as given. *)
Variable AnyPacket : Type.
Variable decode_packet : bytes → NodeID → Outcome AnyPacket.
Variable to_wire_bytes : AnyPacket → bytes.
Variable packet_class_name : AnyPacket → string.

(** [ddht.datagram]: two named tuples, [(datagram, endpoint)]. *)
Definition InboundDatagram : Type := bytes * Endpoint.
Definition OutboundDatagram : Type := bytes * Endpoint.

Record InboundEnvelope : Type := mkInboundEnvelope {
  in_packet : AnyPacket;
  in_sender_endpoint : Endpoint;
}.

Record OutboundEnvelope : Type := mkOutboundEnvelope {
  out_packet : AnyPacket;
  out_receiver_endpoint : Endpoint;
}.

Inductive LogLevel : Type := DEBUG | WARNING.

#[global] Instance LogLevel_eq_dec : EqDecision LogLevel.
Proof. solve_decision. Defined.

(** A record of the logger: level, the text before the endpoint, the
    endpoint the line is about. *)
Record LogRecord : Type := mkLog {
  level : LogLevel;
  text : string;
  about : Endpoint;
}.

(** What the decoder writes to: its logger and the channel of envelopes. *)
Record DecoderState : Type := mkDecoder {
  decoder_log : list LogRecord;
  inbound_packet_send_channel : list InboundEnvelope;
}.

Definition decoder_logs (r : LogRecord) (st : DecoderState) : DecoderState :=
  mkDecoder (decoder_log st ++ [r]) (inbound_packet_send_channel st).

Definition decoder_sends (e : InboundEnvelope) (st : DecoderState) : DecoderState :=
  mkDecoder (decoder_log st) (inbound_packet_send_channel st ++ [e]).

(** [async for datagram, endpoint in inbound_datagram_receive_channel]: the
    loop runs over what the channel hands out until it is closed.  An
    exception that the [except] clause does not name leaves the loop. *)
Fixpoint PacketDecoder (local_node_id : NodeID)
    (inbound_datagram_receive_channel : list InboundDatagram)
    (st : DecoderState) : Outcome unit * DecoderState :=
  match inbound_datagram_receive_channel with
  | [] => (Return tt, st)
  | (datagram, endpoint) :: rest =>
      match decode_packet datagram local_node_id with
      | Return packet =>
          let st := decoder_logs
            (mkLog DEBUG ("Successfully decoded " +:+ packet_class_name packet +:+ " from")
                   endpoint) st in
          let st := decoder_sends (mkInboundEnvelope packet endpoint) st in
          PacketDecoder local_node_id rest st
      | Raise e =>
          if isinstance e "ValidationError" then
            let st := decoder_logs
              (mkLog WARNING "Failed to decode a packet from" endpoint) st in
            PacketDecoder local_node_id rest st
          else (Raise e, st)
      end
  end.

Record EncoderState : Type := mkEncoder {
  encoder_log : list LogRecord;
  outbound_datagram_send_channel : list OutboundDatagram;
}.

Fixpoint PacketEncoder (outbound_packet_receive_channel : list OutboundEnvelope)
    (st : EncoderState) : Outcome unit * EncoderState :=
  match outbound_packet_receive_channel with
  | [] => (Return tt, st)
  | mkOutboundEnvelope packet endpoint :: rest =>
      let outbound_datagram : OutboundDatagram := (to_wire_bytes packet, endpoint) in
      let st := mkEncoder
        (encoder_log st ++
           [mkLog DEBUG ("Encoded " +:+ packet_class_name packet +:+ " for") endpoint])
        (outbound_datagram_send_channel st) in
      let st := mkEncoder (encoder_log st)
        (outbound_datagram_send_channel st ++ [outbound_datagram]) in
      PacketEncoder rest st
  end.

(** What the decoder is expected to forward for a run of datagrams: the
    envelope of every datagram that decodes, in order. *)
Definition decoded_envelopes (local_node_id : NodeID)
    (datagrams : list InboundDatagram) : list InboundEnvelope :=
  omap (λ d : InboundDatagram,
          match decode_packet d.1 local_node_id with
          | Return packet => Some (mkInboundEnvelope packet d.2)
          | Raise _ => None
          end) datagrams.

(** The warnings it is expected to log: one per datagram that does not. *)
Definition decode_warnings (local_node_id : NodeID)
    (datagrams : list InboundDatagram) : list LogRecord :=
  omap (λ d : InboundDatagram,
          match decode_packet d.1 local_node_id with
          | Return _ => None
          | Raise _ => Some (mkLog WARNING "Failed to decode a packet from" d.2)
          end) datagrams.

(** The contract of [decode_packet]: a packet or a [ValidationError]. *)
Definition decodes_or_invalid (local_node_id : NodeID) (d : InboundDatagram) : Prop :=
  match decode_packet d.1 local_node_id with
  | Return _ => True
  | Raise e => exc_class e = "ValidationError"
  end.

Definition warnings_of (log : list LogRecord) : list LogRecord :=
  filter (λ r, level r = WARNING) log.

End Envelope.

Arguments mkInboundEnvelope {AnyPacket} in_packet in_sender_endpoint.
Arguments in_packet {AnyPacket} i.
Arguments in_sender_endpoint {AnyPacket} i.
Arguments mkOutboundEnvelope {AnyPacket} out_packet out_receiver_endpoint.
Arguments out_packet {AnyPacket} o.
Arguments out_receiver_endpoint {AnyPacket} o.
Arguments mkDecoder {AnyPacket} decoder_log inbound_packet_send_channel.
Arguments decoder_log {AnyPacket} d.
Arguments inbound_packet_send_channel {AnyPacket} d.
Arguments PacketDecoder {AnyPacket} decode_packet packet_class_name
  local_node_id inbound_datagram_receive_channel st.
Arguments PacketEncoder {AnyPacket} to_wire_bytes packet_class_name
  outbound_packet_receive_channel st.
Arguments decoded_envelopes {AnyPacket} decode_packet local_node_id datagrams.
Arguments decode_warnings {AnyPacket} decode_packet local_node_id datagrams.
Arguments decodes_or_invalid {AnyPacket} decode_packet local_node_id d.

End Envelope.

(* ===================================================================== *)
(** * Sample data *)
(* ===================================================================== *)

Module Sample.

Definition endpoint : Endpoint := mkEndpoint [x7f; x00; x00; x01] 30303.
Definition peer : NodeID := [xaa].
Definition local_enr : ENR := mkENR 5 [xbb] [xc0].

(** A record whose encoding is [n] bytes long. *)
Definition enr_of_size (tag : byte) (n : nat) : ENR :=
  mkENR 1 [tag] (replicate n x00).

Definition five_enrs : list ENR :=
  [enr_of_size x01 300; enr_of_size x02 300; enr_of_size x03 300;
   enr_of_size x04 300; enr_of_size x05 300].

(** A dispatcher that hands out 7 whatever is reserved. *)
Definition seven : NodeID → gset (NodeID * Z) → Z := λ _ _, 7.

Definition found_nodes (total : Z) (enrs : list ENR) : InboundMessage :=
  mkInbound (FoundNodesMessage 7 total enrs) endpoint peer.

Definition world (deliveries : list (Z * InboundMessage)) : World :=
  mkWorld local_enr ∅ ∅ [] 0 deliveries.

(** Nothing arrives. *)
Definition silent : World := world [].

(** Three responses announced, all three in time. *)
Definition three_in_time : World :=
  world [(1, found_nodes 3 []); (2, found_nodes 3 [local_enr]); (3, found_nodes 3 [])].

(** Three responses announced, the third after the deadline. *)
Definition third_late : World :=
  world [(1, found_nodes 3 []); (2, found_nodes 3 []); (11, found_nodes 3 [])].

(** The head response announces no response at all. *)
Definition total_zero : World := world [(1, found_nodes 0 [])].

(** A packet codec on which a datagram decodes to itself unless empty. *)
Definition decode_nonempty (datagram : bytes) (_ : NodeID) : Outcome bytes :=
  match datagram with
  | [] => Raise (ValidationError "empty datagram")
  | _ => Return datagram
  end.

Definition datagrams : list Envelope.InboundDatagram :=
  [([x01; x02], endpoint); ([], endpoint); ([x03], endpoint)].

(** Two responses announced and in time, a third message queued behind. *)
Definition two_and_one_more : World :=
  world [(1, found_nodes 2 []); (2, found_nodes 2 [local_enr]); (3, found_nodes 9 [])].

(** The head response announces a negative number of responses. *)
Definition total_negative : World := world [(1, found_nodes (-1) [])].

(** A packet codec that round-trips: the packet is its own wire bytes. *)
Definition decode_any (datagram : bytes) (_ : NodeID) : Outcome bytes :=
  Return datagram.

Definition envelopes : list (Envelope.OutboundEnvelope bytes) :=
  [Envelope.mkOutboundEnvelope [x01; x02] endpoint;
   Envelope.mkOutboundEnvelope [] endpoint].

(** The endpoint the receiving node sees the datagrams come from. *)
Definition sender : Endpoint := mkEndpoint [x0a; x00; x00; x02] 30304.

End Sample.

(* ===================================================================== *)
(** * Vocabulary of the statements *)
(* ===================================================================== *)

(** The messages of a delivery queue that arrive by a deadline, up to the
    first one that does not. *)
Fixpoint on_time (deadline : Z) (q : list (Z * InboundMessage))
  : list (Z * InboundMessage) :=
  match q with
  | [] => []
  | (t, m) :: rest =>
      if bool_decide (t ≤ deadline) then (t, m) :: on_time deadline rest else []
  end.

(** The head response has not arrived by the deadline, or it has and
    announces more responses than arrive by the deadline. *)
Definition awaited_in_vain (arrived : list (Z * InboundMessage)) : Prop :=
  arrived = []
  ∨ ∃ head rest t,
      arrived = head :: rest
      ∧ total_of (message head.2) = Return t
      ∧ Z.of_nat (length arrived) < t.

(** The world in which the block under the deadline of a request/response
    operation starts: the request id [r] is reserved for the peer, the
    subscription is registered and the request is on the outbound channel. *)
Definition opened (request : AnyOutboundMessage) (response_message_type : string)
    (w : World) : World :=
  let node_id := receiver_node_id request in
  let r := request_id_of (out_message request) in
  set_outbound (λ q, q ++ [request])
    (set_subscriptions (λ s, {[ (node_id, r, response_message_type) ]} ∪ s)
       (set_reserved (λ s, {[ (node_id, r) ]} ∪ s) w)).

(** The world a request/response operation leaves behind, from the one its
    block under the deadline ended in. *)
Definition closed (request : AnyOutboundMessage) (response_message_type : string)
    (w : World) : World :=
  let node_id := receiver_node_id request in
  let r := request_id_of (out_message request) in
  set_reserved (λ s, s ∖ {[ (node_id, r) ]})
    (set_subscriptions (λ s, s ∖ {[ (node_id, r, response_message_type) ]}) w).

(** A request/response operation ended at its deadline with
    [trio.TooSlowError], its subscription unregistered. *)
Definition timed_out {A} (deadline : Z) (subscription : SubscriptionKey)
    (result : Outcome A * World) : Prop :=
  result.1 = Raise TooSlowError
  ∧ clock result.2 = deadline
  ∧ subscription ∉ subscriptions result.2.

(** Two worlds that differ at most in the clock and in what is still to be
    delivered: same local record, reservations, subscriptions and outbound
    message channel. *)
Definition same_dispatcher (w w' : World) : Prop :=
  enr_manager_enr w' = enr_manager_enr w
  ∧ reserved_request_ids w' = reserved_request_ids w
  ∧ subscriptions w' = subscriptions w
  ∧ outbound_message_channel w' = outbound_message_channel w.

(** A request sender returned the request id of the one message it pushed,
    addressed to the given peer. *)
Definition sends_what_it_returns (c : Coro Z) (endpoint : Endpoint)
    (node_id : NodeID) (w : World) : Prop :=
  ∃ m, outbound_message_channel (c w).2 = outbound_message_channel w ++ [m]
       ∧ (c w).1 = Return (request_id_of (out_message m))
       ∧ receiver_endpoint m = endpoint
       ∧ receiver_node_id m = node_id.

(** The payload of a batch, in bytes of encoded records. *)
Definition batch_size (batch : list ENR) : Z :=
  foldr (λ enr acc, enr_size enr + acc) 0 batch.

(** The [FoundNodesMessage] that [send_found_nodes] builds for a batch. *)
Definition found_nodes_for (endpoint : Endpoint) (node_id : NodeID)
    (request_id total : Z) (batch : list ENR) : AnyOutboundMessage :=
  mkOutbound (FoundNodesMessage request_id total batch) endpoint node_id.

(** A send operation did nothing but return [r] and push [m] onto the
    outbound message channel. *)
Definition only_sends (c : Coro Z) (r : Z) (m : AnyOutboundMessage) (w : World) : Prop :=
  c w = (Return r, set_outbound (λ q, q ++ [m]) w).

(* ===================================================================== *)
(** * The message registry *)
(* ===================================================================== *)

Lemma v51_registry_registers_all :
  Messages.v51_registry_built = Some Messages.v51_registry.
Proof. vm_compute. reflexivity. Qed.

Lemma v51_registry_ids :
  (Messages.message_type <$> Messages.v51_registry) =
  list_to_map ((λ i, (i, i)) <$> [1; 2; 3; 4; 5; 6; 7; 8; 9; 10]).
Proof. vm_compute. reflexivity. Qed.

(** C8. The registry files ten classes under the identifiers 1 to 10 of the
    wire-format table, and nine of them declare their fields as the table
    lists them; the class under 3, [FindNodeMessage], declares
    [request_id] and then a single big-endian integer [distance], not a
    list of distances. *)
Theorem v51_registry_against_wire_formats :
  (Messages.row_agrees <$> Messages.spec_wire_formats)
    = [true; true; false; true; true; true; true; true; true; true]
  ∧ (λ row : string * Z * list Messages.FieldEntry,
       Messages.message_type <$> (Messages.v51_registry !! row.1.2))
      <$> Messages.spec_wire_formats
    = (λ row : string * Z * list Messages.FieldEntry, Some row.1.2)
      <$> Messages.spec_wire_formats
  ∧ Messages.v51_registry !! 3 = Some Messages.FindNodeMessage
  ∧ Messages.fields Messages.FindNodeMessage
    = [("request_id", Messages.big_endian_int); ("distance", Messages.big_endian_int)]
  ∧ Messages.field_entry <$> Messages.fields Messages.FindNodeMessage
    ≠ [Messages.Plain "request_id"; Messages.Listed "distances"].
Proof.
  repeat split; try (vm_compute; reflexivity).
  vm_compute. discriminate.
Qed.

(* ===================================================================== *)
(** * Partitioning records into batches *)
(* ===================================================================== *)

Section Partition.

Variable max_payload_size : Z.

Lemma partition_from_concat (enrs batch : list ENR) (size : Z) :
  concat (partition_from max_payload_size batch size enrs) = batch ++ enrs.
Proof.
  revert batch size.
  induction enrs as [|enr rest IH]; intros batch size; simpl.
  - destruct batch; simpl; [reflexivity|]. by rewrite !app_nil_r.
  - destruct batch as [|b batch'].
    + rewrite IH. reflexivity.
    + case_bool_decide; simpl.
      * rewrite IH. simpl. by rewrite <- app_assoc.
      * rewrite IH. reflexivity.
Qed.

Lemma partition_from_nonempty (enrs batch : list ENR) (size : Z) :
  Forall (λ b, b ≠ []) (partition_from max_payload_size batch size enrs).
Proof.
  revert batch size.
  induction enrs as [|enr rest IH]; intros batch size; simpl.
  - destruct batch; repeat constructor. discriminate.
  - destruct batch as [|b batch']; [apply IH|].
    case_bool_decide; [apply IH|].
    constructor; [discriminate|apply IH].
Qed.

Lemma batch_size_app (b1 b2 : list ENR) :
  batch_size (b1 ++ b2) = batch_size b1 + batch_size b2.
Proof.
  induction b1 as [|e b1 IH]; simpl; [reflexivity|].
  unfold batch_size in *. simpl. rewrite IH. lia.
Qed.

Lemma partition_from_fits (enrs batch : list ENR) :
  Forall (λ enr, enr_size enr ≤ max_payload_size) enrs →
  batch_size batch ≤ max_payload_size →
  Forall (λ b, batch_size b ≤ max_payload_size)
         (partition_from max_payload_size batch (batch_size batch) enrs).
Proof.
  revert batch.
  induction enrs as [|enr rest IH]; intros batch Hall Hb; simpl.
  - destruct batch; repeat constructor. exact Hb.
  - inversion Hall as [|? ? Henr Hrest]; subst.
    assert (Hone : batch_size [enr] = enr_size enr)
      by (unfold batch_size; simpl; lia).
    destruct batch as [|b batch'].
    + rewrite <- Hone. apply IH; [exact Hrest|]. rewrite Hone. exact Henr.
    + case_bool_decide as Hfit.
      * replace (batch_size (b :: batch') + enr_size enr)
          with (batch_size ((b :: batch') ++ [enr]))
          by (rewrite batch_size_app, Hone; reflexivity).
        apply IH; [exact Hrest|]. rewrite batch_size_app, Hone. exact Hfit.
      * constructor; [exact Hb|].
        rewrite <- Hone. apply IH; [exact Hrest|]. rewrite Hone. exact Henr.
Qed.

End Partition.

Lemma partition_enrs_concat (enrs : list ENR) (max_payload_size : Z) :
  concat (partition_enrs enrs max_payload_size) = enrs.
Proof.
  unfold partition_enrs. destruct enrs as [|enr rest]; [reflexivity|].
  apply partition_from_concat.
Qed.

Lemma partition_enrs_fits (enrs : list ENR) (max_payload_size : Z) :
  0 ≤ max_payload_size →
  Forall (λ enr, enr_size enr ≤ max_payload_size) enrs →
  Forall (λ b, batch_size b ≤ max_payload_size)
         (partition_enrs enrs max_payload_size).
Proof.
  intros Hmax Hall. unfold partition_enrs.
  destruct enrs as [|enr rest]; [repeat constructor; exact Hmax|].
  change 0 with (batch_size []) at 1.
  apply partition_from_fits; [exact Hall|exact Hmax].
Qed.

Lemma partition_enrs_empty (max_payload_size : Z) :
  partition_enrs [] max_payload_size = [[]].
Proof. reflexivity. Qed.

(* ===================================================================== *)
(** * The message API of the client *)
(* ===================================================================== *)

Lemma set_outbound_nil (w : World) : set_outbound (λ q, q ++ []) w = w.
Proof. destruct w. unfold set_outbound. simpl. by rewrite app_nil_r. Qed.

Lemma set_outbound_cons (m : AnyOutboundMessage) (ms : list AnyOutboundMessage)
    (w : World) :
  set_outbound (λ q, q ++ ms) (set_outbound (λ q, q ++ [m]) w)
  = set_outbound (λ q, q ++ m :: ms) w.
Proof. destruct w. unfold set_outbound. simpl. by rewrite <- app_assoc. Qed.

Lemma for_each_send_message {X} (f : X → AnyOutboundMessage) (xs : list X)
    (w : World) :
  for_each xs (λ x, Dispatcher.send_message (f x)) w
  = (Return tt, set_outbound (λ q, q ++ (f <$> xs)) w).
Proof.
  revert w. induction xs as [|x xs IH]; intros w; simpl.
  - unfold ret. by rewrite set_outbound_nil.
  - unfold mbind, Coro_bind, bind, Dispatcher.send_message, modify.
    rewrite IH, set_outbound_cons. reflexivity.
Qed.

Lemma send_found_nodes_sends (endpoint : Endpoint) (node_id : NodeID)
    (enrs : list ENR) (request_id : Z) (w : World) :
  let batches := partition_enrs enrs Constants.FOUND_NODES_MAX_PAYLOAD_SIZE in
  let total := Z.of_nat (length batches) in
  Client.send_found_nodes endpoint node_id enrs request_id w
  = (Return total,
     set_outbound
       (λ q, q ++ (found_nodes_for endpoint node_id request_id total <$> batches)) w).
Proof.
  intros batches total. unfold Client.send_found_nodes.
  fold batches. fold total.
  unfold mbind at 1. unfold Coro_bind, bind.
  rewrite (for_each_send_message (found_nodes_for endpoint node_id request_id total)).
  reflexivity.
Qed.

Lemma found_nodes_for_enrs (endpoint : Endpoint) (node_id : NodeID)
    (request_id total : Z) (batches : list (list ENR)) :
  (λ m, enrs_of (out_message m))
    <$> (found_nodes_for endpoint node_id request_id total <$> batches)
  = batches.
Proof.
  induction batches as [|b bs IH]; simpl; [reflexivity|].
  f_equal. exact IH.
Qed.


(** C4. For a non-empty sequence of records [send_found_nodes] pushes one
    [FoundNodesMessage] per batch of [partition_enrs] under
    [FOUND_NODES_MAX_PAYLOAD_SIZE], in the order of the batches and to the
    given peer; each carries the given request id and, as [total], the
    number of batches; the records of the messages, concatenated in the
    order sent, are the input; the number of batches, at least 1, is what
    the call returns; and a batch stays under the maximum when each record
    does. *)
Theorem send_found_nodes_one_message_per_batch (endpoint : Endpoint)
    (node_id : NodeID) (enrs : list ENR) (request_id : Z) (w : World) :
  enrs ≠ [] →
  let batches := partition_enrs enrs Constants.FOUND_NODES_MAX_PAYLOAD_SIZE in
  let total := Z.of_nat (length batches) in
  let sent := found_nodes_for endpoint node_id request_id total <$> batches in
  Client.send_found_nodes endpoint node_id enrs request_id w
    = (Return total, set_outbound (λ q, q ++ sent) w)
  ∧ length sent = length batches
  ∧ Forall (λ m, request_id_of (out_message m) = request_id
                 ∧ total_of (out_message m) = Return total
                 ∧ receiver_endpoint m = endpoint
                 ∧ receiver_node_id m = node_id) sent
  ∧ concat ((λ m, enrs_of (out_message m)) <$> sent) = enrs
  ∧ 1 ≤ total
  ∧ (Forall (λ enr, enr_size enr ≤ Constants.FOUND_NODES_MAX_PAYLOAD_SIZE) enrs →
     Forall (λ b, batch_size b ≤ Constants.FOUND_NODES_MAX_PAYLOAD_SIZE) batches).
Proof.
  intros Hne batches total sent.
  split; [apply send_found_nodes_sends|].
  split; [apply length_fmap|].
  split.
  { apply Forall_fmap, Forall_true. intros b. simpl. auto. }
  split.
  { unfold sent. rewrite found_nodes_for_enrs. apply partition_enrs_concat. }
  split.
  { assert (Hb : batches ≠ []).
    { intros Hnil. apply Hne. rewrite <- (partition_enrs_concat enrs
        Constants.FOUND_NODES_MAX_PAYLOAD_SIZE). fold batches. by rewrite Hnil. }
    unfold total. destruct batches; [done|]. simpl length. lia. }
  intros Hall. apply partition_enrs_fits; [done|exact Hall].
Qed.

(** C9. [send_pong] pushes exactly one message onto the outbound message
    channel, a [PongMessage] for the given peer built from the request id
    it was given, the sequence number of the local record and the IP
    address and port of the endpoint; it touches neither the reserved
    request ids nor the subscriptions. *)
Theorem send_pong_echoes_request_id (endpoint : Endpoint) (node_id : NodeID)
    (request_id : Z) (w : World) :
  let pong :=
    mkOutbound
      (PongMessage request_id (sequence_number (enr_manager_enr w))
                   (ip_address endpoint) (port endpoint))
      endpoint node_id in
  let w' := (Client.send_pong endpoint node_id request_id w).2 in
  (Client.send_pong endpoint node_id request_id w).1 = Return tt
  ∧ outbound_message_channel w' = outbound_message_channel w ++ [pong]
  ∧ request_id_of (out_message pong) = request_id
  ∧ reserved_request_ids w' = reserved_request_ids w
  ∧ subscriptions w' = subscriptions w
  ∧ enr_manager_enr w' = enr_manager_enr w.
Proof. repeat split. Qed.

Section ExplicitRequestId.

Variable get_free_request_id : NodeID → gset (NodeID * Z) → Z.
Variables (endpoint : Endpoint) (node_id : NodeID) (R : Z) (w : World).

(** C10. With an explicit request id [R], each of the five request-sending
    operations returns [R] and does nothing but push the message built
    with [R] onto the outbound message channel: whatever the dispatcher
    would pick is not consulted, and the set of reserved request ids is the
    same afterwards, whether or not [R] was already reserved for the peer. *)
Theorem explicit_request_id_bypasses_reservation
    (distances : list Z) (protocol request topic ticket : bytes) (enr : ENR) :
  only_sends
    (Client.send_ping get_free_request_id endpoint node_id (Some R)) R
    (mkOutbound (PingMessage R (sequence_number (enr_manager_enr w)))
                endpoint node_id) w
  ∧ only_sends
    (Client.send_find_nodes get_free_request_id endpoint node_id distances (Some R)) R
    (mkOutbound (FindNodeMessage R distances) endpoint node_id) w
  ∧ only_sends
    (Client.send_talk_request get_free_request_id endpoint node_id protocol
                              request (Some R)) R
    (mkOutbound (TalkRequestMessage R protocol request) endpoint node_id) w
  ∧ only_sends
    (Client.send_register_topic get_free_request_id endpoint node_id topic enr
                                ticket (Some R)) R
    (mkOutbound (RegisterTopicMessage R topic enr ticket) endpoint node_id) w
  ∧ only_sends
    (Client.send_topic_query get_free_request_id endpoint node_id topic (Some R)) R
    (mkOutbound (TopicQueryMessage R topic) endpoint node_id) w.
Proof. repeat split. Qed.

End ExplicitRequestId.

Lemma only_sends_keeps_reservations (c : Coro Z) (r : Z) (m : AnyOutboundMessage)
    (w : World) :
  only_sends c r m w →
  reserved_request_ids (c w).2 = reserved_request_ids w
  ∧ subscriptions (c w).2 = subscriptions w
  ∧ outbound_message_channel (c w).2 = outbound_message_channel w ++ [m].
Proof. unfold only_sends. intros ->. repeat split. Qed.

(** Without an explicit id the same operation goes through the dispatcher:
    the id is the one the dispatcher picks, reserved while the message is
    sent and released on the way out. *)
Lemma send_ping_reserves (get_free_request_id : NodeID → gset (NodeID * Z) → Z)
    (endpoint : Endpoint) (node_id : NodeID) (w : World) :
  let r := get_free_request_id node_id (reserved_request_ids w) in
  let w' := (Client.send_ping get_free_request_id endpoint node_id None w).2 in
  (Client.send_ping get_free_request_id endpoint node_id None w).1 = Return r
  ∧ outbound_message_channel w'
    = outbound_message_channel w
      ++ [mkOutbound (PingMessage r (sequence_number (enr_manager_enr w)))
                     endpoint node_id]
  ∧ reserved_request_ids w'
    = ({[ (node_id, r) ]} ∪ reserved_request_ids w) ∖ {[ (node_id, r) ]}.
Proof. repeat split. Qed.

(* ===================================================================== *)
(** * The packet codec stage *)
(* ===================================================================== *)

Section PacketCodec.

Import Envelope.

Context {AnyPacket : Type}.
Variable decode_packet : bytes → NodeID → Outcome AnyPacket.
Variable to_wire_bytes : AnyPacket → bytes.
Variable packet_class_name : AnyPacket → string.
Variable local_node_id : NodeID.

Local Abbreviation decoder := (PacketDecoder decode_packet packet_class_name local_node_id).
Local Abbreviation encoder := (PacketEncoder to_wire_bytes packet_class_name).

Lemma warnings_of_app (l1 l2 : list LogRecord) :
  warnings_of (l1 ++ l2) = warnings_of l1 ++ warnings_of l2.
Proof. unfold warnings_of. apply filter_app. Qed.

(** A datagram that decodes: one debug line, one envelope, and on to the
    next datagram. *)
Lemma PacketDecoder_valid (datagram : bytes) (endpoint : Endpoint)
    (packet : AnyPacket) (rest : list InboundDatagram) (st : DecoderState AnyPacket) :
  decode_packet datagram local_node_id = Return packet →
  decoder ((datagram, endpoint) :: rest) st
  = decoder rest
      (mkDecoder
         (decoder_log st ++
            [mkLog DEBUG ("Successfully decoded " +:+ packet_class_name packet +:+ " from")
                   endpoint])
         (inbound_packet_send_channel st ++ [mkInboundEnvelope packet endpoint])).
Proof. intros Hd. simpl. rewrite Hd. reflexivity. Qed.

(** A datagram that fails validation: one warning, no envelope, and on to
    the next datagram. *)
Lemma PacketDecoder_invalid (datagram : bytes) (endpoint : Endpoint)
    (e : PyException) (rest : list InboundDatagram) (st : DecoderState AnyPacket) :
  decode_packet datagram local_node_id = Raise e →
  exc_class e = "ValidationError" →
  decoder ((datagram, endpoint) :: rest) st
  = decoder rest
      (mkDecoder
         (decoder_log st ++ [mkLog WARNING "Failed to decode a packet from" endpoint])
         (inbound_packet_send_channel st)).
Proof.
  intros Hd He. simpl. rewrite Hd. unfold isinstance.
  rewrite bool_decide_eq_true_2 by exact He. reflexivity.
Qed.

(** Any other exception is not caught: it ends the service. *)
Lemma PacketDecoder_other_error (datagram : bytes) (endpoint : Endpoint)
    (e : PyException) (rest : list InboundDatagram) (st : DecoderState AnyPacket) :
  decode_packet datagram local_node_id = Raise e →
  exc_class e ≠ "ValidationError" →
  decoder ((datagram, endpoint) :: rest) st = (Raise e, st).
Proof.
  intros Hd He. simpl. rewrite Hd. unfold isinstance.
  rewrite bool_decide_eq_false_2 by exact He. reflexivity.
Qed.

Lemma decoded_or_warned (datagrams : list InboundDatagram) :
  (length (decoded_envelopes decode_packet local_node_id datagrams)
   + length (decode_warnings decode_packet local_node_id datagrams))%nat
  = length datagrams.
Proof.
  unfold decoded_envelopes, decode_warnings.
  induction datagrams as [|[datagram endpoint] rest IH]; [reflexivity|].
  cbn [omap list_omap fst snd].
  destruct (decode_packet datagram local_node_id); cbn [length]; lia.
Qed.

(** C5. Over any run of inbound datagrams on which [decode_packet] keeps to
    its contract (a packet or a [ValidationError]), the decoder ends
    normally, no exception leaving it; the envelope channel receives, in
    order, exactly one envelope for each datagram that decodes, carrying
    the decoded packet and the endpoint the datagram came from, and none
    for a datagram that fails validation; and one warning is logged for
    each datagram that fails validation. *)
Theorem PacketDecoder_drops_invalid_forwards_valid
    (datagrams : list InboundDatagram) (st : DecoderState AnyPacket) :
  Forall (decodes_or_invalid decode_packet local_node_id) datagrams →
  (decoder datagrams st).1 = Return tt
  ∧ inbound_packet_send_channel (decoder datagrams st).2
    = inbound_packet_send_channel st
      ++ decoded_envelopes decode_packet local_node_id datagrams
  ∧ warnings_of (decoder_log (decoder datagrams st).2)
    = warnings_of (decoder_log st)
      ++ decode_warnings decode_packet local_node_id datagrams
  ∧ (length (decoded_envelopes decode_packet local_node_id datagrams)
     + length (decode_warnings decode_packet local_node_id datagrams))%nat
    = length datagrams.
Proof.
  intros Hall.
  cut ((decoder datagrams st).1 = Return tt
       ∧ inbound_packet_send_channel (decoder datagrams st).2
         = inbound_packet_send_channel st
           ++ decoded_envelopes decode_packet local_node_id datagrams
       ∧ warnings_of (decoder_log (decoder datagrams st).2)
         = warnings_of (decoder_log st)
           ++ decode_warnings decode_packet local_node_id datagrams).
  { intros (H1 & H2 & H3). pose proof (decoded_or_warned datagrams). auto. }
  revert st.
  induction Hall as [|[datagram endpoint] rest Hd Hrest IH]; intros st.
  - simpl. by rewrite !app_nil_r.
  - unfold decodes_or_invalid in Hd. simpl in Hd.
    unfold decoded_envelopes, decode_warnings in *.
    cbn [omap list_omap fst snd].
    destruct (decode_packet datagram local_node_id) as [packet|e] eqn:Hdec.
    + rewrite (PacketDecoder_valid _ _ _ _ _ Hdec).
      destruct (IH (mkDecoder
         (decoder_log st ++
            [mkLog DEBUG ("Successfully decoded " +:+ packet_class_name packet +:+ " from")
                   endpoint])
         (inbound_packet_send_channel st ++ [mkInboundEnvelope packet endpoint])))
        as (IH1 & IH2 & IH3).
      split; [exact IH1|]. split.
      * rewrite IH2. cbn [inbound_packet_send_channel]. by rewrite <- app_assoc.
      * rewrite IH3. cbn [decoder_log]. rewrite warnings_of_app.
        unfold warnings_of at 2. cbn. by rewrite app_nil_r.
    + rewrite (PacketDecoder_invalid _ _ _ _ _ Hdec Hd).
      destruct (IH (mkDecoder
         (decoder_log st ++ [mkLog WARNING "Failed to decode a packet from" endpoint])
         (inbound_packet_send_channel st)))
        as (IH1 & IH2 & IH3).
      split; [exact IH1|]. split; [exact IH2|].
      rewrite IH3. cbn [decoder_log]. rewrite warnings_of_app, <- app_assoc.
      reflexivity.
Qed.

Lemma PacketEncoder_step (packet : AnyPacket) (endpoint : Endpoint)
    (rest : list (OutboundEnvelope AnyPacket)) (st : EncoderState) :
  encoder (mkOutboundEnvelope packet endpoint :: rest) st
  = encoder rest
      (mkEncoder
         (encoder_log st ++
            [mkLog DEBUG ("Encoded " +:+ packet_class_name packet +:+ " for") endpoint])
         (outbound_datagram_send_channel st ++ [(to_wire_bytes packet, endpoint)])).
Proof. reflexivity. Qed.

(** C6. Over any run of outbound envelopes the encoder ends normally and
    appends to the datagram channel, in the order of the envelopes, one
    datagram per envelope: the wire bytes of its packet and its receiver
    endpoint. *)
Theorem PacketEncoder_one_datagram_per_envelope
    (envelopes : list (OutboundEnvelope AnyPacket)) (st : EncoderState) :
  let datagrams : list OutboundDatagram :=
    (λ e, (to_wire_bytes (out_packet e), out_receiver_endpoint e)) <$> envelopes in
  (encoder envelopes st).1 = Return tt
  ∧ outbound_datagram_send_channel (encoder envelopes st).2
    = outbound_datagram_send_channel st ++ datagrams
  ∧ length datagrams = length envelopes
  ∧ ∀ (i : nat) (e : OutboundEnvelope AnyPacket),
      envelopes !! i = Some e →
      outbound_datagram_send_channel (encoder envelopes st).2
        !! (length (outbound_datagram_send_channel st) + i)%nat
      = Some (to_wire_bytes (out_packet e), out_receiver_endpoint e).
Proof.
  intros datagrams.
  assert (H12 : (encoder envelopes st).1 = Return tt
    ∧ outbound_datagram_send_channel (encoder envelopes st).2
      = outbound_datagram_send_channel st ++ datagrams).
  { unfold datagrams. clear datagrams. revert st.
    induction envelopes as [|[packet endpoint] rest IH]; intros st.
    - simpl. by rewrite app_nil_r.
    - rewrite PacketEncoder_step. destruct (IH (mkEncoder
        (encoder_log st ++
           [mkLog DEBUG ("Encoded " +:+ packet_class_name packet +:+ " for") endpoint])
        (outbound_datagram_send_channel st ++ [(to_wire_bytes packet, endpoint)])))
        as [IH1 IH2].
      split; [exact IH1|]. rewrite IH2.
      cbn [outbound_datagram_send_channel fmap list_fmap out_packet
           out_receiver_endpoint].
      by rewrite <- app_assoc. }
  destruct H12 as [H1 H2].
  split; [exact H1|]. split; [exact H2|]. split; [apply length_fmap|].
  intros i e Hi. rewrite H2.
  rewrite lookup_app_r by apply Nat.le_add_r.
  rewrite (Nat.add_comm _ i), Nat.add_sub.
  unfold datagrams. rewrite list_lookup_fmap, Hi. reflexivity.
Qed.

End PacketCodec.

(* ===================================================================== *)
(** * Receiving under a deadline *)
(* ===================================================================== *)

Section Receive.

Variable subscription : SubscriptionKey.
Variable deadline : Z.

Lemma receive_on_time (w : World) (t : Z) (m : InboundMessage)
    (rest : list (Z * InboundMessage)) :
  deliveries w = (t, m) :: rest →
  t ≤ deadline →
  Trio.receive subscription deadline w
  = (Return m, set_clock_deliveries (Z.max (clock w) t) rest w).
Proof.
  intros Hq Ht. unfold Trio.receive. rewrite Hq.
  rewrite bool_decide_eq_true_2 by exact Ht. reflexivity.
Qed.

Lemma receive_too_slow (w : World) :
  on_time deadline (deliveries w) = [] →
  (Trio.receive subscription deadline w).1 = Raise TooSlowError
  ∧ clock (Trio.receive subscription deadline w).2 = deadline
  ∧ subscriptions (Trio.receive subscription deadline w).2 = subscriptions w.
Proof.
  unfold Trio.receive. destruct (deliveries w) as [|[t m] rest]; simpl.
  - auto.
  - case_bool_decide; [discriminate|]. auto.
Qed.

Lemma on_time_cons (w : World) (head : Z * InboundMessage)
    (rest : list (Z * InboundMessage)) :
  on_time deadline (deliveries w) = head :: rest →
  ∃ q, deliveries w = head :: q ∧ head.1 ≤ deadline ∧ on_time deadline q = rest.
Proof.
  destruct (deliveries w) as [|[t m] q]; simpl; [discriminate|].
  case_bool_decide; [|discriminate].
  intros [= <- <-]. eauto.
Qed.

Lemma receive_tail_on_time (n : nat) (acc : list InboundMessage) (w : World) :
  (n ≤ length (on_time deadline (deliveries w)))%nat →
  (Client.receive_tail subscription deadline n acc w).1
  = Return (acc ++ (take n (on_time deadline (deliveries w))).*2).
Proof.
  revert acc w. induction n as [|n IH]; intros acc w Hn.
  - simpl. by rewrite app_nil_r.
  - destruct (on_time deadline (deliveries w)) as [|[t m] rest] eqn:Hq;
      [simpl in Hn; lia|].
    destruct (on_time_cons _ _ _ Hq) as (q & Hw & Ht & Hrest).
    cbn [Client.receive_tail]. unfold mbind, Coro_bind, bind.
    rewrite (receive_on_time _ _ _ _ Hw Ht).
    rewrite IH.
    + cbn [deliveries set_clock_deliveries]. rewrite Hrest.
      cbn [take fmap list_fmap snd]. by rewrite <- app_assoc.
    + cbn [deliveries set_clock_deliveries]. rewrite Hrest.
      simpl in Hn. lia.
Qed.

Lemma receive_tail_too_slow (n : nat) (acc : list InboundMessage) (w : World) :
  (length (on_time deadline (deliveries w)) < n)%nat →
  (Client.receive_tail subscription deadline n acc w).1 = Raise TooSlowError
  ∧ clock (Client.receive_tail subscription deadline n acc w).2 = deadline
  ∧ subscriptions (Client.receive_tail subscription deadline n acc w).2
    = subscriptions w.
Proof.
  revert acc w. induction n as [|n IH]; intros acc w Hn; [lia|].
  cbn [Client.receive_tail]. unfold mbind, Coro_bind, bind.
  destruct (on_time deadline (deliveries w)) as [|[t m] rest] eqn:Hq.
  - destruct (receive_too_slow w Hq) as (H1 & H2 & H3).
    destruct (Trio.receive subscription deadline w) as [o w1].
    simpl in *. subst o. auto.
  - destruct (on_time_cons _ _ _ Hq) as (q & Hw & Ht & Hrest).
    rewrite (receive_on_time _ _ _ _ Hw Ht).
    destruct (IH (acc ++ [m]) (set_clock_deliveries (Z.max (clock w) t) q w))
      as (H1 & H2 & H3).
    + cbn [deliveries set_clock_deliveries]. rewrite Hrest. simpl in Hn. lia.
    + auto.
Qed.

(** What the block under the deadline in [find_nodes] comes to, by what
    arrives in time. *)
Lemma find_nodes_responses_complete (w : World) (head : Z * InboundMessage)
    (rest : list (Z * InboundMessage)) (t : Z) :
  on_time deadline (deliveries w) = head :: rest →
  total_of (message head.2) = Return t →
  1 ≤ t →
  t ≤ Z.of_nat (length (head :: rest)) →
  (Client.find_nodes_responses subscription deadline w).1
  = Return (take (Z.to_nat t) (head :: rest)).*2.
Proof.
  intros Hq Htot H1 Hlen. destruct head as [t0 m].
  destruct (on_time_cons _ _ _ Hq) as (q & Hw & Ht & Hrest).
  unfold Client.find_nodes_responses, mbind, Coro_bind, bind.
  rewrite (receive_on_time _ _ _ _ Hw Ht).
  simpl in Htot. unfold lift. rewrite Htot.
  case_bool_decide as Hone.
  - subst t. reflexivity.
  - rewrite bool_decide_eq_true_2 by lia.
    pose proof (receive_tail_on_time (Z.to_nat (t - 1)) []
      (set_clock_deliveries (Z.max (clock w) t0) q w)) as Htail.
    cbn [deliveries set_clock_deliveries] in Htail. rewrite Hrest in Htail.
    destruct (Client.receive_tail subscription deadline (Z.to_nat (t - 1)) []
      (set_clock_deliveries (Z.max (clock w) t0) q w)) as [o w1].
    simpl in Htail. cbn [length] in Hlen.
    assert (Hn : (Z.to_nat (t - 1) ≤ length rest)%nat) by (clear -Hlen H1; lia).
    rewrite (Htail Hn).
    simpl. replace (Z.to_nat t) with (S (Z.to_nat (t - 1))) by (clear -H1; lia).
    reflexivity.
Qed.

Lemma find_nodes_responses_invalid_total (w : World) (head : Z * InboundMessage)
    (rest : list (Z * InboundMessage)) (t : Z) :
  on_time deadline (deliveries w) = head :: rest →
  total_of (message head.2) = Return t →
  t ≤ 0 →
  (Client.find_nodes_responses subscription deadline w).1
  = Raise (Exception "Invalid `total` counter in response").
Proof.
  intros Hq Htot H0. destruct head as [t0 m].
  destruct (on_time_cons _ _ _ Hq) as (q & Hw & Ht & Hrest).
  unfold Client.find_nodes_responses, mbind, Coro_bind, bind.
  rewrite (receive_on_time _ _ _ _ Hw Ht).
  simpl in Htot. unfold lift. rewrite Htot.
  rewrite bool_decide_eq_false_2 by lia.
  rewrite bool_decide_eq_false_2 by lia.
  reflexivity.
Qed.

Lemma find_nodes_responses_too_slow (w : World) :
  awaited_in_vain (on_time deadline (deliveries w)) →
  (Client.find_nodes_responses subscription deadline w).1 = Raise TooSlowError
  ∧ clock (Client.find_nodes_responses subscription deadline w).2 = deadline
  ∧ subscriptions (Client.find_nodes_responses subscription deadline w).2
    = subscriptions w.
Proof.
  intros [Hq | (head & rest & t & Hq & Htot & Hlen)];
    unfold Client.find_nodes_responses, mbind, Coro_bind, bind.
  - destruct (receive_too_slow w Hq) as (H1 & H2 & H3).
    destruct (Trio.receive subscription deadline w) as [o w1].
    simpl in *. subst o. auto.
  - destruct head as [t0 m].
    destruct (on_time_cons _ _ _ Hq) as (q & Hw & Ht & Hrest).
    rewrite (receive_on_time _ _ _ _ Hw Ht).
    simpl in Htot. unfold lift. rewrite Htot.
    rewrite Hq in Hlen. cbn [length] in Hlen.
    rewrite bool_decide_eq_false_2 by lia.
    rewrite bool_decide_eq_true_2 by lia.
    destruct (receive_tail_too_slow (Z.to_nat (t - 1)) []
      (set_clock_deliveries (Z.max (clock w) t0) q w)) as (H1 & H2 & H3).
    { cbn [deliveries set_clock_deliveries]. rewrite Hrest. lia. }
    destruct (Client.receive_tail subscription deadline (Z.to_nat (t - 1)) []
      (set_clock_deliveries (Z.max (clock w) t0) q w)) as [o w1].
    simpl in *. subst o. auto.
Qed.

End Receive.

(* ===================================================================== *)
(** * The request/response API of the client *)
(* ===================================================================== *)

Section RequestResponse.

Variable get_free_request_id : NodeID → gset (NodeID * Z) → Z.
Variables (endpoint : Endpoint) (node_id : NodeID) (w : World).

Local Abbreviation r := (get_free_request_id node_id (reserved_request_ids w)).
Local Abbreviation deadline := (clock w + Constants.REQUEST_RESPONSE_TIMEOUT).
Local Abbreviation ping_request :=
  (mkOutbound (PingMessage r (sequence_number (enr_manager_enr w))) endpoint node_id).
Local Abbreviation find_node_request distances :=
  (mkOutbound (FindNodeMessage r distances) endpoint node_id).

Lemma ping_unfold :
  let res := Trio.receive (node_id, r, "PongMessage") deadline
               (opened ping_request "PongMessage" w) in
  Client.ping get_free_request_id endpoint node_id w
  = (res.1, closed ping_request "PongMessage" res.2).
Proof.
  intros res. unfold res, opened, closed, Client.ping, with_, mbind, Coro_bind,
    bind, Client.local_sequence_number, Trio.fail_after.
  cbn -[Trio.receive].
  unfold mbind, Coro_bind, bind, modify, Dispatcher.send_message, mret,
    Coro_ret, ret.
  cbn -[Trio.receive].
  by destruct (Trio.receive _ _ _).
Qed.

Lemma find_nodes_unfold (distances : list Z) :
  let res := Client.find_nodes_responses (node_id, r, "FoundNodesMessage") deadline
               (opened (find_node_request distances) "FoundNodesMessage" w) in
  Client.find_nodes get_free_request_id endpoint node_id distances w
  = (res.1, closed (find_node_request distances) "FoundNodesMessage" res.2).
Proof.
  intros res. unfold res, opened, closed, Client.find_nodes, with_,
    Trio.fail_after.
  cbn -[Client.find_nodes_responses].
  unfold mbind, Coro_bind, bind, modify, Dispatcher.send_message, mret,
    Coro_ret, ret.
  cbn -[Client.find_nodes_responses].
  by destruct (Client.find_nodes_responses _ _ _).
Qed.

Lemma closed_disposes (request : AnyOutboundMessage) (cls : string) (w' : World) :
  ((receiver_node_id request, request_id_of (out_message request), cls)
     ∉ subscriptions (closed request cls w'))
  ∧ ((receiver_node_id request, request_id_of (out_message request))
       ∉ reserved_request_ids (closed request cls w'))
  ∧ clock (closed request cls w') = clock w'.
Proof.
  unfold closed. simpl. repeat split.
  - intros [_ Hn]%elem_of_difference. apply Hn. by apply elem_of_singleton.
  - intros [_ Hn]%elem_of_difference. apply Hn. by apply elem_of_singleton.
Qed.

(** C1. When the head response of a FINDNODE exchange announces [t >= 1]
    responses and that many arrive on the subscription by the deadline,
    [find_nodes] returns exactly [t] messages: the head response first,
    then the next [t - 1] messages of the subscription in the order they
    arrived. *)
Theorem find_nodes_returns_total_responses (distances : list Z)
    (head : Z * InboundMessage) (rest : list (Z * InboundMessage)) (t : Z) :
  on_time deadline (deliveries w) = head :: rest →
  total_of (message head.2) = Return t →
  1 ≤ t →
  t ≤ Z.of_nat (length (head :: rest)) →
  let responses := head.2 :: (take (Z.to_nat (t - 1)) rest).*2 in
  (Client.find_nodes get_free_request_id endpoint node_id distances w).1
    = Return responses
  ∧ Z.of_nat (length responses) = t.
Proof.
  intros Hq Htot H1 Hlen responses.
  rewrite find_nodes_unfold. cbn [fst].
  rewrite (find_nodes_responses_complete _ _ _ head rest t); try done.
  unfold responses.
  replace (Z.to_nat t) with (S (Z.to_nat (t - 1))) by (clear -H1; lia).
  split; [reflexivity|].
  cbn [length] in *. rewrite length_fmap, length_take. clear -H1 Hlen. lia.
Qed.

(** C2. When the head response arrives by the deadline and its [total] is
    0, [find_nodes] raises the bare [Exception("Invalid `total` counter in
    response")]; the exception reaches the caller of [find_nodes], and on
    the way out the subscription is unregistered and the request id
    released. *)
Theorem find_nodes_total_zero_raises_exception (distances : list Z)
    (head : Z * InboundMessage) (rest : list (Z * InboundMessage)) :
  on_time deadline (deliveries w) = head :: rest →
  total_of (message head.2) = Return 0 →
  let result := Client.find_nodes get_free_request_id endpoint node_id distances w in
  result.1 = Raise (Exception "Invalid `total` counter in response")
  ∧ fails_with "Exception" result.1
  ∧ ((node_id, r, "FoundNodesMessage") ∉ subscriptions result.2)
  ∧ ((node_id, r) ∉ reserved_request_ids result.2).
Proof.
  intros Hq Htot result. unfold result.
  rewrite find_nodes_unfold. cbn [fst snd].
  rewrite (find_nodes_responses_invalid_total _ _ _ head rest 0); try done.
  split; [reflexivity|]. split; [by eexists|].
  destruct (closed_disposes (find_node_request distances) "FoundNodesMessage"
    (Client.find_nodes_responses (node_id, r, "FoundNodesMessage") deadline
       (opened (find_node_request distances) "FoundNodesMessage" w)).2)
    as (Hs & Hr & _).
  split; [exact Hs|exact Hr].
Qed.

(** C7. [ping] and [find_nodes] run their receives against one deadline,
    [REQUEST_RESPONSE_TIMEOUT] = 10 seconds after the block is entered.
    When the awaited response has not arrived by then ([ping]: the pong;
    [find_nodes]: the head response, or one of the responses the head
    announced), the operation raises [trio.TooSlowError] at the deadline
    and leaves with its subscription unregistered. *)
Theorem request_response_deadline (distances : list Z) :
  Constants.REQUEST_RESPONSE_TIMEOUT = 10
  ∧ (on_time deadline (deliveries w) = [] →
     timed_out deadline (node_id, r, "PongMessage")
       (Client.ping get_free_request_id endpoint node_id w))
  ∧ (awaited_in_vain (on_time deadline (deliveries w)) →
     timed_out deadline (node_id, r, "FoundNodesMessage")
       (Client.find_nodes get_free_request_id endpoint node_id distances w)).
Proof.
  split; [reflexivity|]. split.
  - intros Hq. rewrite ping_unfold. unfold timed_out. cbn [fst snd].
    destruct (receive_too_slow (node_id, r, "PongMessage") deadline
      (opened ping_request "PongMessage" w) Hq) as (H1 & H2 & _).
    destruct (closed_disposes ping_request "PongMessage"
      (Trio.receive (node_id, r, "PongMessage") deadline
         (opened ping_request "PongMessage" w)).2) as (Hs & _ & Hc).
    split; [exact H1|]. split; [by rewrite Hc|exact Hs].
  - intros Hq. rewrite find_nodes_unfold. unfold timed_out. cbn [fst snd].
    destruct (find_nodes_responses_too_slow (node_id, r, "FoundNodesMessage")
      deadline (opened (find_node_request distances) "FoundNodesMessage" w) Hq)
      as (H1 & H2 & _).
    destruct (closed_disposes (find_node_request distances) "FoundNodesMessage"
      (Client.find_nodes_responses (node_id, r, "FoundNodesMessage") deadline
         (opened (find_node_request distances) "FoundNodesMessage" w)).2)
      as (Hs & _ & Hc).
    split; [exact H1|]. split; [by rewrite Hc|exact Hs].
Qed.

(** When the pong does arrive by the deadline, [ping] returns it. *)
Lemma ping_returns_pong (head : Z * InboundMessage) (rest : list (Z * InboundMessage)) :
  on_time deadline (deliveries w) = head :: rest →
  (Client.ping get_free_request_id endpoint node_id w).1 = Return head.2.
Proof.
  intros Hq. rewrite ping_unfold. cbn [fst]. destruct head as [t m].
  destruct (on_time_cons deadline (opened ping_request "PongMessage" w) _ _ Hq)
    as (q & Hw & Ht & _).
  by rewrite (receive_on_time _ _ _ _ _ _ Hw Ht).
Qed.

End RequestResponse.

(* ===================================================================== *)
(** * The theorems at sample inputs *)
(* ===================================================================== *)

Example partition_five_enrs :
  partition_enrs Sample.five_enrs Constants.FOUND_NODES_MAX_PAYLOAD_SIZE
  = [take 4 Sample.five_enrs; drop 4 Sample.five_enrs].
Proof. vm_compute. reflexivity. Qed.

Lemma send_found_nodes_one_message_per_batch_witness :
  Sample.five_enrs ≠ []
  ∧ Client.send_found_nodes Sample.endpoint Sample.peer Sample.five_enrs 7 Sample.silent
    = (Return 2,
       set_outbound
         (λ q, q ++ [found_nodes_for Sample.endpoint Sample.peer 7 2
                       (take 4 Sample.five_enrs);
                     found_nodes_for Sample.endpoint Sample.peer 7 2
                       (drop 4 Sample.five_enrs)])
         Sample.silent).
Proof.
  assert (Hne : Sample.five_enrs ≠ []) by discriminate.
  split; [exact Hne|].
  destruct (send_found_nodes_one_message_per_batch Sample.endpoint Sample.peer
              Sample.five_enrs 7 Sample.silent Hne) as [Hsent _].
  rewrite partition_five_enrs in Hsent. exact Hsent.
Defined.

Lemma PacketDecoder_drops_invalid_forwards_valid_witness :
  Forall (Envelope.decodes_or_invalid Sample.decode_nonempty Sample.peer)
         Sample.datagrams
  ∧ Envelope.inbound_packet_send_channel
      (Envelope.PacketDecoder Sample.decode_nonempty (λ _, "Packet") Sample.peer
         Sample.datagrams (Envelope.mkDecoder [] [])).2
    = [Envelope.mkInboundEnvelope [x01; x02] Sample.endpoint;
       Envelope.mkInboundEnvelope [x03] Sample.endpoint].
Proof.
  assert (Hall : Forall (Envelope.decodes_or_invalid Sample.decode_nonempty
                           Sample.peer) Sample.datagrams).
  { repeat constructor. }
  split; [exact Hall|].
  destruct (PacketDecoder_drops_invalid_forwards_valid Sample.decode_nonempty
              (λ _, "Packet") Sample.peer Sample.datagrams
              (Envelope.mkDecoder [] []) Hall) as (_ & Hchan & _).
  exact Hchan.
Defined.

Lemma find_nodes_returns_total_responses_witness :
  (Client.find_nodes Sample.seven Sample.endpoint Sample.peer [256]
     Sample.three_in_time).1
  = Return [Sample.found_nodes 3 []; Sample.found_nodes 3 [Sample.local_enr];
            Sample.found_nodes 3 []].
Proof.
  apply (find_nodes_returns_total_responses Sample.seven Sample.endpoint
           Sample.peer Sample.three_in_time [256]
           (1, Sample.found_nodes 3 [])
           [(2, Sample.found_nodes 3 [Sample.local_enr]);
            (3, Sample.found_nodes 3 [])] 3).
  - reflexivity.
  - reflexivity.
  - lia.
  - simpl. lia.
Defined.

(** At a head response with [total = 0], [find_nodes] does not end with an
    exception of a class [ProtocolViolation]. *)
Lemma find_nodes_total_zero_not_ProtocolViolation :
  total_of (message (Sample.found_nodes 0 [])) = Return 0
  ∧ ¬ fails_with "ProtocolViolation"
        (Client.find_nodes Sample.seven Sample.endpoint Sample.peer [256]
           Sample.total_zero).1.
Proof.
  split; [reflexivity|].
  intros (e & He & Hcls). vm_compute in He.
  injection He as <-. discriminate Hcls.
Qed.

Lemma find_nodes_total_zero_raises_exception_witness :
  (Client.find_nodes Sample.seven Sample.endpoint Sample.peer [256]
     Sample.total_zero).1
  = Raise (Exception "Invalid `total` counter in response").
Proof.
  apply (find_nodes_total_zero_raises_exception Sample.seven Sample.endpoint
           Sample.peer Sample.total_zero [256] (1, Sample.found_nodes 0 []) []).
  - reflexivity.
  - reflexivity.
Defined.

(** With no response at all, [ping] does not end with an exception of a
    class [RequestTimeout]. *)
Lemma ping_timeout_not_RequestTimeout :
  on_time (clock Sample.silent + Constants.REQUEST_RESPONSE_TIMEOUT)
          (deliveries Sample.silent) = []
  ∧ ¬ fails_with "RequestTimeout"
        (Client.ping Sample.seven Sample.endpoint Sample.peer Sample.silent).1.
Proof.
  split; [reflexivity|].
  intros (e & He & Hcls). vm_compute in He.
  injection He as <-. discriminate Hcls.
Qed.

Lemma request_response_deadline_witness :
  timed_out 10 (Sample.peer, 7, "PongMessage")
    (Client.ping Sample.seven Sample.endpoint Sample.peer Sample.silent)
  ∧ timed_out 10 (Sample.peer, 7, "FoundNodesMessage")
      (Client.find_nodes Sample.seven Sample.endpoint Sample.peer [256]
         Sample.third_late).
Proof.
  split.
  - destruct (request_response_deadline Sample.seven Sample.endpoint Sample.peer
                Sample.silent [256]) as (_ & Hping & _).
    apply Hping. reflexivity.
  - destruct (request_response_deadline Sample.seven Sample.endpoint Sample.peer
                Sample.third_late [256]) as (_ & _ & Hfind).
    apply Hfind. right.
    exists (1, Sample.found_nodes 3 []), [(2, Sample.found_nodes 3 [])], 3.
    split; [reflexivity|]. split; [reflexivity|]. simpl. lia.
Defined.

(** An explicit request id that is already reserved for the peer is used
    all the same, and stays reserved. *)
Example send_ping_explicit_id_already_reserved :
  let w := mkWorld Sample.local_enr {[ (Sample.peer, 7) ]} ∅ [] 0 [] in
  Client.send_ping Sample.seven Sample.endpoint Sample.peer (Some 7) w
  = (Return 7,
     set_outbound
       (λ q, q ++ [mkOutbound (PingMessage 7 5) Sample.endpoint Sample.peer]) w).
Proof. reflexivity. Qed.

(** A codec failure other than a validation error ends the decoder. *)
Example PacketDecoder_propagates_other_errors :
  (Envelope.PacketDecoder
     (λ _ _, Raise (mkException "KeyError" "") : Outcome bytes)
     (λ _, "Packet") Sample.peer Sample.datagrams (Envelope.mkDecoder [] [])).1
  = Raise (mkException "KeyError" "").
Proof. reflexivity. Qed.

(* ===================================================================== *)
(** * What receiving leaves alone, and what it consumes *)
(* ===================================================================== *)

Section ReceiveState.

Variable subscription : SubscriptionKey.
Variable deadline : Z.

Lemma same_dispatcher_refl (w : World) : same_dispatcher w w.
Proof. repeat split. Qed.

Lemma same_dispatcher_trans (w1 w2 w3 : World) :
  same_dispatcher w1 w2 → same_dispatcher w2 w3 → same_dispatcher w1 w3.
Proof.
  intros (A1 & A2 & A3 & A4) (B1 & B2 & B3 & B4).
  repeat split; congruence.
Qed.

Lemma receive_same_dispatcher (w : World) :
  same_dispatcher w (Trio.receive subscription deadline w).2.
Proof.
  unfold Trio.receive. destruct (deliveries w) as [|[t m] rest].
  - repeat split.
  - case_bool_decide; repeat split.
Qed.

Lemma receive_tail_same_dispatcher (n : nat) (acc : list InboundMessage)
    (w : World) :
  same_dispatcher w (Client.receive_tail subscription deadline n acc w).2.
Proof.
  revert acc w. induction n as [|n IH]; intros acc w.
  - apply same_dispatcher_refl.
  - cbn [Client.receive_tail]. unfold mbind, Coro_bind, bind.
    pose proof (receive_same_dispatcher w) as Hr.
    destruct (Trio.receive subscription deadline w) as [[m|e] w1]; [|exact Hr].
    eapply same_dispatcher_trans; [exact Hr|apply IH].
Qed.

Lemma find_nodes_responses_same_dispatcher (w : World) :
  same_dispatcher w (Client.find_nodes_responses subscription deadline w).2.
Proof.
  unfold Client.find_nodes_responses, mbind, Coro_bind, bind, lift.
  pose proof (receive_same_dispatcher w) as Hr.
  destruct (Trio.receive subscription deadline w) as [[m|e] w1]; [|exact Hr].
  destruct (total_of (message m)) as [t|e]; [|exact Hr].
  case_bool_decide; [exact Hr|].
  case_bool_decide; [|exact Hr].
  pose proof (receive_tail_same_dispatcher (Z.to_nat (t - 1)) [] w1) as Ht.
  destruct (Client.receive_tail subscription deadline (Z.to_nat (t - 1)) [] w1)
    as [[tl|e] w2]; cbn [snd] in *;
    (eapply same_dispatcher_trans; [exact Hr|exact Ht]).
Qed.

Lemma receive_tail_deliveries (n : nat) (acc : list InboundMessage) (w : World) :
  (n ≤ length (on_time deadline (deliveries w)))%nat →
  deliveries (Client.receive_tail subscription deadline n acc w).2
  = drop n (deliveries w).
Proof.
  revert acc w. induction n as [|n IH]; intros acc w Hn; [reflexivity|].
  destruct (on_time deadline (deliveries w)) as [|[t m] rest] eqn:Hq;
    [simpl in Hn; lia|].
  destruct (on_time_cons _ _ _ _ Hq) as (q & Hw & Ht & Hrest).
  cbn [Client.receive_tail]. unfold mbind, Coro_bind, bind.
  rewrite (receive_on_time _ _ _ _ _ _ Hw Ht).
  rewrite IH.
  - rewrite Hw. reflexivity.
  - cbn [deliveries set_clock_deliveries]. rewrite Hrest. simpl in Hn. lia.
Qed.

Lemma find_nodes_responses_deliveries (w : World) (head : Z * InboundMessage)
    (rest : list (Z * InboundMessage)) (t : Z) :
  on_time deadline (deliveries w) = head :: rest →
  total_of (message head.2) = Return t →
  1 ≤ t →
  t ≤ Z.of_nat (length (head :: rest)) →
  deliveries (Client.find_nodes_responses subscription deadline w).2
  = drop (Z.to_nat t) (deliveries w).
Proof.
  intros Hq Htot H1 Hlen. destruct head as [t0 m].
  destruct (on_time_cons _ _ _ _ Hq) as (q & Hw & Ht & Hrest).
  unfold Client.find_nodes_responses, mbind, Coro_bind, bind.
  rewrite (receive_on_time _ _ _ _ _ _ Hw Ht).
  simpl in Htot. unfold lift. rewrite Htot.
  replace (Z.to_nat t) with (S (Z.to_nat (t - 1))) by (clear -H1; lia).
  rewrite Hw. cbn [drop].
  case_bool_decide as Hone.
  - subst t. reflexivity.
  - rewrite bool_decide_eq_true_2 by lia.
    cbn [length] in Hlen.
    assert (Hn : (Z.to_nat (t - 1) ≤ length rest)%nat) by (clear -Hlen H1; lia).
    pose proof (receive_tail_deliveries (Z.to_nat (t - 1)) []
      (set_clock_deliveries (Z.max (clock w) t0) q w)) as Htail.
    cbn [deliveries set_clock_deliveries] in Htail. rewrite Hrest in Htail.
    specialize (Htail Hn).
    destruct (Client.receive_tail subscription deadline (Z.to_nat (t - 1)) []
      (set_clock_deliveries (Z.max (clock w) t0) q w)) as [[tl|e] w1];
      exact Htail.
Qed.

(** A head response without a [total] ends the block with the attribute
    error. *)
Lemma find_nodes_responses_no_total (w : World) (head : Z * InboundMessage)
    (rest : list (Z * InboundMessage)) (e : PyException) :
  on_time deadline (deliveries w) = head :: rest →
  total_of (message head.2) = Raise e →
  (Client.find_nodes_responses subscription deadline w).1 = Raise e.
Proof.
  intros Hq Htot. destruct head as [t0 m].
  destruct (on_time_cons _ _ _ _ Hq) as (q & Hw & Ht & Hrest).
  unfold Client.find_nodes_responses, mbind, Coro_bind, bind.
  rewrite (receive_on_time _ _ _ _ _ _ Hw Ht).
  simpl in Htot. unfold lift. rewrite Htot. reflexivity.
Qed.

End ReceiveState.

(* ===================================================================== *)
(** * More on the request/response API *)
(* ===================================================================== *)

Section RequestResponseState.

Variable get_free_request_id : NodeID → gset (NodeID * Z) → Z.
Variables (endpoint : Endpoint) (node_id : NodeID) (w : World).

Local Abbreviation r := (get_free_request_id node_id (reserved_request_ids w)).
Local Abbreviation deadline := (clock w + Constants.REQUEST_RESPONSE_TIMEOUT).
Local Abbreviation ping_request :=
  (mkOutbound (PingMessage r (sequence_number (enr_manager_enr w))) endpoint node_id).
Local Abbreviation find_node_request distances :=
  (mkOutbound (FindNodeMessage r distances) endpoint node_id).

Lemma released (x : NodeID * Z) (s : gset (NodeID * Z)) :
  x ∉ s → ({[ x ]} ∪ s) ∖ {[ x ]} = s.
Proof.
  intros Hx. apply set_eq. intros y.
  rewrite elem_of_difference, elem_of_union, elem_of_singleton.
  split; [intros [[->|Hy] Hn]; [done|exact Hy]|].
  intros Hy. split; [by right|]. intros ->. exact (Hx Hy).
Qed.

Lemma unregistered (x : SubscriptionKey) (s : gset SubscriptionKey) :
  x ∉ s → ({[ x ]} ∪ s) ∖ {[ x ]} = s.
Proof.
  intros Hx. apply set_eq. intros y.
  rewrite elem_of_difference, elem_of_union, elem_of_singleton.
  split; [intros [[->|Hy] Hn]; [done|exact Hy]|].
  intros Hy. split; [by right|]. intros ->. exact (Hx Hy).
Qed.

(** X1. [find_nodes] returns only in one way: a head response arrived by
    the deadline announcing some [t >= 1], and what is returned is the
    first [t] messages that arrived by the deadline, [t] of them; in
    particular it never returns an empty tuple, and never more or fewer
    messages than the head announced. *)
Theorem find_nodes_returns_only_total (distances : list Z)
    (responses : list InboundMessage) :
  (Client.find_nodes get_free_request_id endpoint node_id distances w).1
    = Return responses →
  ∃ head rest t,
    on_time deadline (deliveries w) = head :: rest
    ∧ total_of (message head.2) = Return t
    ∧ 1 ≤ t
    ∧ Z.of_nat (length responses) = t
    ∧ responses = (take (Z.to_nat t) (head :: rest)).*2.
Proof.
  rewrite find_nodes_unfold. cbn [fst]. intros Hret.
  pose (w1 := opened (find_node_request distances) "FoundNodesMessage" w).
  assert (Hd : deliveries w1 = deliveries w) by reflexivity.
  fold w1 in Hret. rewrite <- Hd.
  destruct (on_time deadline (deliveries w1)) as [|head rest] eqn:Hq.
  - destruct (find_nodes_responses_too_slow (node_id, r, "FoundNodesMessage")
      deadline w1) as (Hslow & _); [left; exact Hq|].
    rewrite Hslow in Hret. discriminate.
  - destruct (total_of (message head.2)) as [t|e] eqn:Htot.
    + destruct (decide (t ≤ 0)) as [H0|H0].
      { rewrite (find_nodes_responses_invalid_total _ _ _ head rest t Hq Htot H0)
          in Hret. discriminate. }
      destruct (decide (t ≤ Z.of_nat (length (head :: rest)))) as [Hlen|Hlen].
      * assert (H1 : 1 ≤ t) by lia.
        rewrite (find_nodes_responses_complete _ _ _ head rest t Hq Htot H1 Hlen)
          in Hret.
        injection Hret as <-.
        exists head, rest, t.
        split; [reflexivity|]. split; [exact Htot|]. split; [exact H1|].
        split; [|reflexivity].
        rewrite length_fmap, length_take. clear -H1 Hlen. lia.
      * destruct (find_nodes_responses_too_slow (node_id, r, "FoundNodesMessage")
          deadline w1) as (Hslow & _).
        { right. exists head, rest, t. rewrite Hq.
          repeat split; [exact Htot|lia]. }
        rewrite Hslow in Hret. discriminate.
    + rewrite (find_nodes_responses_no_total _ _ _ head rest e Hq Htot) in Hret.
      discriminate.
Qed.

(** X2. When [find_nodes] succeeds on a head response announcing [t], it
    has taken exactly [t] messages off the subscription: whatever was
    queued behind them is still there, unread. *)
Theorem find_nodes_consumes_total (distances : list Z)
    (head : Z * InboundMessage) (rest : list (Z * InboundMessage)) (t : Z) :
  on_time deadline (deliveries w) = head :: rest →
  total_of (message head.2) = Return t →
  1 ≤ t →
  t ≤ Z.of_nat (length (head :: rest)) →
  deliveries (Client.find_nodes get_free_request_id endpoint node_id distances w).2
  = drop (Z.to_nat t) (deliveries w).
Proof.
  intros Hq Htot H1 Hlen. rewrite find_nodes_unfold. cbn [snd].
  change (deliveries (closed ?a ?b ?c)) with (deliveries c).
  by rewrite (find_nodes_responses_deliveries _ _ _ head rest t).
Qed.

(** X3. Whatever the outcome (a result, a timeout, an invalid [total]),
    [ping] and [find_nodes] put exactly one message on the outbound
    channel, behind what was queued: the [PingMessage] with the picked
    request id and the local sequence number, or the [FindNodeMessage]
    with the picked request id and the given distances.  Nothing is sent
    again while waiting. *)
Theorem request_sent_exactly_once (distances : list Z) :
  outbound_message_channel
    (Client.ping get_free_request_id endpoint node_id w).2
  = outbound_message_channel w ++ [ping_request]
  ∧ outbound_message_channel
      (Client.find_nodes get_free_request_id endpoint node_id distances w).2
    = outbound_message_channel w ++ [find_node_request distances].
Proof.
  split.
  - rewrite ping_unfold. cbn [snd].
    change (outbound_message_channel (closed ?a ?b ?c))
      with (outbound_message_channel c).
    destruct (receive_same_dispatcher (node_id, r, "PongMessage") deadline
      (opened ping_request "PongMessage" w)) as (_ & _ & _ & ->).
    reflexivity.
  - rewrite find_nodes_unfold. cbn [snd].
    change (outbound_message_channel (closed ?a ?b ?c))
      with (outbound_message_channel c).
    destruct (find_nodes_responses_same_dispatcher
      (node_id, r, "FoundNodesMessage") deadline
      (opened (find_node_request distances) "FoundNodesMessage" w))
      as (_ & _ & _ & ->).
    reflexivity.
Qed.

(** X4. When a response arrives on the subscription by the deadline,
    [ping] returns that message, whatever it carries; it has taken that
    one message off the subscription and no other, and its subscription is
    unregistered when it returns. *)
Theorem ping_returns_first_response (head : Z * InboundMessage)
    (rest : list (Z * InboundMessage)) :
  on_time deadline (deliveries w) = head :: rest →
  let result := Client.ping get_free_request_id endpoint node_id w in
  result.1 = Return head.2
  ∧ deliveries result.2 = drop 1 (deliveries w)
  ∧ ((node_id, r, "PongMessage") ∉ subscriptions result.2).
Proof.
  intros Hq result. unfold result. rewrite ping_unfold. cbn [fst snd].
  destruct head as [t m].
  destruct (on_time_cons deadline (opened ping_request "PongMessage" w) _ _ Hq)
    as (q & Hw & Ht & _).
  rewrite (receive_on_time _ _ _ _ _ _ Hw Ht). cbn [fst snd].
  split; [reflexivity|]. split.
  - change (deliveries (opened ping_request "PongMessage" w))
      with (deliveries w) in Hw.
    rewrite Hw. reflexivity.
  - apply (closed_disposes ping_request "PongMessage").
Qed.

(** X5. When the request id the dispatcher picks is not reserved for the
    peer and no subscription is registered under it, [ping] and
    [find_nodes] leave the reservations and the subscriptions exactly as
    they found them, on every way out: result, timeout or exception. *)
Theorem request_response_leaves_no_trace (distances : list Z) :
  (node_id, r) ∉ reserved_request_ids w →
  (∀ cls, (node_id, r, cls) ∉ subscriptions w) →
  let pinged := (Client.ping get_free_request_id endpoint node_id w).2 in
  let found :=
    (Client.find_nodes get_free_request_id endpoint node_id distances w).2 in
  reserved_request_ids pinged = reserved_request_ids w
  ∧ subscriptions pinged = subscriptions w
  ∧ reserved_request_ids found = reserved_request_ids w
  ∧ subscriptions found = subscriptions w.
Proof.
  intros Hr Hs pinged found. unfold pinged, found.
  rewrite ping_unfold, find_nodes_unfold. cbn [snd].
  destruct (receive_same_dispatcher (node_id, r, "PongMessage") deadline
    (opened ping_request "PongMessage" w)) as (_ & Pr & Ps & _).
  destruct (find_nodes_responses_same_dispatcher
    (node_id, r, "FoundNodesMessage") deadline
    (opened (find_node_request distances) "FoundNodesMessage" w))
    as (_ & Fr & Fs & _).
  unfold closed.
  cbn [reserved_request_ids subscriptions set_reserved set_subscriptions
       receiver_node_id out_message request_id_of].
  rewrite Pr, Ps, Fr, Fs. unfold opened.
  cbn [reserved_request_ids subscriptions set_reserved set_subscriptions
       set_outbound receiver_node_id out_message request_id_of].
  rewrite (released _ _ Hr), !(unregistered _ _ (Hs _)). done.
Qed.

(** X6. A head response whose [total] is negative is refused like one
    whose [total] is 0: [find_nodes] raises the bare [Exception] after the
    head, without waiting for anything else. *)
Theorem find_nodes_negative_total (distances : list Z)
    (head : Z * InboundMessage) (rest : list (Z * InboundMessage)) (t : Z) :
  on_time deadline (deliveries w) = head :: rest →
  total_of (message head.2) = Return t →
  t < 0 →
  (Client.find_nodes get_free_request_id endpoint node_id distances w).1
  = Raise (Exception "Invalid `total` counter in response").
Proof.
  intros Hq Htot Hneg. rewrite find_nodes_unfold. cbn [fst].
  apply (find_nodes_responses_invalid_total _ _ _ head rest t); [done|done|lia].
Qed.

End RequestResponseState.

(* ===================================================================== *)
(** * More on the message API *)
(* ===================================================================== *)

Section MessageAPI.

Variable get_free_request_id : NodeID → gset (NodeID * Z) → Z.
Variables (endpoint : Endpoint) (node_id : NodeID) (w : World).

Local Abbreviation r := (get_free_request_id node_id (reserved_request_ids w)).

Lemma reserve_send_release (m : AnyOutboundMessage) :
  (node_id, r) ∉ reserved_request_ids w →
  set_reserved (λ s, s ∖ {[ (node_id, r) ]})
    (set_outbound (λ q, q ++ [m])
       (set_reserved (λ s, {[ (node_id, r) ]} ∪ s) w))
  = set_outbound (λ q, q ++ [m]) w.
Proof.
  intros Hr. destruct w as [e rs ss out c d]. unfold set_reserved, set_outbound.
  cbn in *. by rewrite (released _ _ Hr).
Qed.

(** X8. Without an explicit request id, each of the five request senders
    returns the id the dispatcher picks and pushes the one message built
    with it; when that id was not reserved for the peer beforehand, the
    reservation made for the send is gone afterwards and nothing else has
    changed. *)
Theorem reserved_request_id_is_released
    (distances : list Z) (protocol request topic ticket : bytes) (enr : ENR) :
  (node_id, r) ∉ reserved_request_ids w →
  only_sends
    (Client.send_ping get_free_request_id endpoint node_id None) r
    (mkOutbound (PingMessage r (sequence_number (enr_manager_enr w)))
                endpoint node_id) w
  ∧ only_sends
    (Client.send_find_nodes get_free_request_id endpoint node_id distances None) r
    (mkOutbound (FindNodeMessage r distances) endpoint node_id) w
  ∧ only_sends
    (Client.send_talk_request get_free_request_id endpoint node_id protocol
                              request None) r
    (mkOutbound (TalkRequestMessage r protocol request) endpoint node_id) w
  ∧ only_sends
    (Client.send_register_topic get_free_request_id endpoint node_id topic enr
                                ticket None) r
    (mkOutbound (RegisterTopicMessage r topic enr ticket) endpoint node_id) w
  ∧ only_sends
    (Client.send_topic_query get_free_request_id endpoint node_id topic None) r
    (mkOutbound (TopicQueryMessage r topic) endpoint node_id) w.
Proof.
  intros Hr. unfold only_sends.
  repeat split; (etransitivity; [|by rewrite <- (reserve_send_release _ Hr)]);
    reflexivity.
Qed.

(** X9. With or without an explicit request id, the value a request sender
    returns is the request id carried by the one message it pushed, and
    that message is addressed to the endpoint and node id it was given: the
    caller can match the response on the returned id. *)
Theorem request_senders_return_sent_id (request_id : option Z)
    (distances : list Z) (protocol request topic ticket : bytes) (enr : ENR) :
  sends_what_it_returns
    (Client.send_ping get_free_request_id endpoint node_id request_id)
    endpoint node_id w
  ∧ sends_what_it_returns
    (Client.send_find_nodes get_free_request_id endpoint node_id distances
                            request_id)
    endpoint node_id w
  ∧ sends_what_it_returns
    (Client.send_talk_request get_free_request_id endpoint node_id protocol
                              request request_id)
    endpoint node_id w
  ∧ sends_what_it_returns
    (Client.send_register_topic get_free_request_id endpoint node_id topic enr
                                ticket request_id)
    endpoint node_id w
  ∧ sends_what_it_returns
    (Client.send_topic_query get_free_request_id endpoint node_id topic request_id)
    endpoint node_id w.
Proof.
  unfold sends_what_it_returns.
  destruct request_id as [R|]; repeat split; eexists; repeat split.
Qed.

End MessageAPI.

(* ===================================================================== *)
(** * More on the packet codec stage *)
(* ===================================================================== *)

Section PacketCodecRuns.

Import Envelope.

Context {AnyPacket : Type}.
Variable decode_packet : bytes → NodeID → Outcome AnyPacket.
Variable to_wire_bytes : AnyPacket → bytes.
Variable packet_class_name : AnyPacket → string.
Variable local_node_id : NodeID.

Local Abbreviation decoder := (PacketDecoder decode_packet packet_class_name local_node_id).
Local Abbreviation encoder := (PacketEncoder to_wire_bytes packet_class_name).

Lemma decoded_envelopes_cons_valid (datagram : bytes) (endpoint : Endpoint)
    (packet : AnyPacket) (rest : list InboundDatagram) :
  decode_packet datagram local_node_id = Return packet →
  decoded_envelopes decode_packet local_node_id ((datagram, endpoint) :: rest)
  = mkInboundEnvelope packet endpoint
    :: decoded_envelopes decode_packet local_node_id rest.
Proof.
  intros Hd. unfold decoded_envelopes. cbn [omap list_omap fst snd].
  by rewrite Hd.
Qed.

Lemma decoded_envelopes_cons_invalid (datagram : bytes) (endpoint : Endpoint)
    (e : PyException) (rest : list InboundDatagram) :
  decode_packet datagram local_node_id = Raise e →
  decoded_envelopes decode_packet local_node_id ((datagram, endpoint) :: rest)
  = decoded_envelopes decode_packet local_node_id rest.
Proof.
  intros Hd. unfold decoded_envelopes. cbn [omap list_omap fst snd].
  by rewrite Hd.
Qed.

(** X11. Whatever [decode_packet] does, the envelopes the decoder has
    forwarded when it stops are exactly those of the datagrams of a prefix
    of its input, in order, one per datagram that decodes: the whole input
    when it ends normally, and otherwise the datagrams before the one on
    which [decode_packet] raised something other than a [ValidationError],
    which is the exception that leaves the decoder. *)
Theorem PacketDecoder_forwards_a_prefix (datagrams : list InboundDatagram)
    (st : DecoderState AnyPacket) :
  ∃ k : nat,
    inbound_packet_send_channel (decoder datagrams st).2
    = inbound_packet_send_channel st
      ++ decoded_envelopes decode_packet local_node_id (take k datagrams)
    ∧ match (decoder datagrams st).1 with
      | Return _ => k = length datagrams
      | Raise e =>
          exc_class e ≠ "ValidationError"
          ∧ ∃ d, datagrams !! k = Some d
                 ∧ decode_packet d.1 local_node_id = Raise e
      end.
Proof.
  revert st. induction datagrams as [|[datagram endpoint] rest IH]; intros st.
  - exists 0%nat. simpl. by rewrite app_nil_r.
  - destruct (decode_packet datagram local_node_id) as [packet|e] eqn:Hdec.
    + rewrite (PacketDecoder_valid _ _ _ _ _ _ _ _ Hdec).
      destruct (IH (mkDecoder
         (decoder_log st ++
            [mkLog DEBUG ("Successfully decoded " +:+ packet_class_name packet +:+ " from")
                   endpoint])
         (inbound_packet_send_channel st ++ [mkInboundEnvelope packet endpoint])))
        as (k & Hchan & Hout).
      exists (S k). split.
      * rewrite Hchan. cbn [inbound_packet_send_channel take].
        rewrite (decoded_envelopes_cons_valid _ _ _ _ Hdec).
        by rewrite <- app_assoc.
      * destruct (decoder rest _).1; [cbn [length]; by f_equal|exact Hout].
    + destruct (decide (exc_class e = "ValidationError")) as [He|He].
      * rewrite (PacketDecoder_invalid _ _ _ _ _ _ _ _ Hdec He).
        destruct (IH (mkDecoder
           (decoder_log st ++ [mkLog WARNING "Failed to decode a packet from" endpoint])
           (inbound_packet_send_channel st))) as (k & Hchan & Hout).
        exists (S k). split.
        -- rewrite Hchan. cbn [inbound_packet_send_channel take].
           by rewrite (decoded_envelopes_cons_invalid _ _ _ _ Hdec).
        -- destruct (decoder rest _).1; [cbn [length]; by f_equal|exact Hout].
      * rewrite (PacketDecoder_other_error _ _ _ _ _ _ _ _ Hdec He).
        exists 0%nat. cbn [fst snd take]. split.
        -- unfold decoded_envelopes. simpl. by rewrite app_nil_r.
        -- split; [exact He|]. exists (datagram, endpoint). by split.
Qed.

Lemma PacketEncoder_channel (envelopes : list (OutboundEnvelope AnyPacket))
    (st : EncoderState) :
  outbound_datagram_send_channel (encoder envelopes st).2
  = outbound_datagram_send_channel st
    ++ ((λ e, (to_wire_bytes (out_packet e), out_receiver_endpoint e)) <$> envelopes).
Proof.
  revert st. induction envelopes as [|[packet endpoint] rest IH]; intros st.
  - simpl. by rewrite app_nil_r.
  - rewrite PacketEncoder_step, IH.
    cbn [outbound_datagram_send_channel fmap list_fmap out_packet
         out_receiver_endpoint].
    by rewrite <- app_assoc.
Qed.

(** X13. Encoder and decoder undo each other on a codec that round-trips:
    when [decode_packet] gives back every packet of a run of envelopes from
    its wire bytes, the datagrams the encoder emits for the run, received
    from endpoint [sender] by the node they decode for, make the decoder
    end normally and forward exactly the packets of the run, in order, each
    with [sender] as its endpoint. *)
Theorem encoder_then_decoder_round_trip
    (envelopes : list (OutboundEnvelope AnyPacket)) (sender : Endpoint)
    (est : EncoderState) (dst : DecoderState AnyPacket) :
  Forall (λ e, decode_packet (to_wire_bytes (out_packet e)) local_node_id
               = Return (out_packet e)) envelopes →
  let emitted :=
    drop (length (outbound_datagram_send_channel est))
         (outbound_datagram_send_channel (encoder envelopes est).2) in
  let received : list InboundDatagram := (λ d, (d.1, sender)) <$> emitted in
  (decoder received dst).1 = Return tt
  ∧ inbound_packet_send_channel (decoder received dst).2
    = inbound_packet_send_channel dst
      ++ ((λ e, mkInboundEnvelope (out_packet e) sender) <$> envelopes).
Proof.
  intros Hall emitted received. unfold received, emitted.
  rewrite PacketEncoder_channel, drop_app_length. clear emitted received.
  revert dst. induction Hall as [|[packet endpoint] rest Hd Hrest IH]; intros dst.
  - simpl. by rewrite app_nil_r.
  - cbn [fmap list_fmap out_packet out_receiver_endpoint fst] in *.
    rewrite (PacketDecoder_valid _ _ _ _ _ _ _ _ Hd).
    destruct (IH (mkDecoder
       (decoder_log dst ++
          [mkLog DEBUG ("Successfully decoded " +:+ packet_class_name packet +:+ " from")
                 sender])
       (inbound_packet_send_channel dst ++ [mkInboundEnvelope packet sender])))
      as [IH1 IH2].
    split; [exact IH1|]. rewrite IH2. cbn [inbound_packet_send_channel].
    by rewrite <- app_assoc.
Qed.

End PacketCodecRuns.

(* ===================================================================== *)
(** * More on the message registry *)
(* ===================================================================== *)

(** X14. The registry holds ten classes and nothing under any other id;
    every registered class is filed under its own [message_type], declares
    [request_id], a big-endian integer, as its first field, and has no two
    fields of the same name. *)
Theorem v51_registry_request_id_first :
  size Messages.v51_registry = 10%nat
  ∧ map_Forall
      (λ (id : Z) (cls : Messages.MessageClass),
         1 ≤ id ≤ 10
         ∧ Messages.message_type cls = id
         ∧ head (Messages.fields cls) = Some ("request_id", Messages.big_endian_int)
         ∧ NoDup (Messages.fields cls).*1)
      Messages.v51_registry.
Proof.
  split; [vm_compute; reflexivity|].
  apply (bool_decide_unpack _). vm_compute. exact I.
Qed.

(* ===================================================================== *)
(** * The further theorems at sample inputs *)
(* ===================================================================== *)

Lemma find_nodes_returns_only_total_witness :
  ∃ head rest t,
    on_time (clock Sample.three_in_time + Constants.REQUEST_RESPONSE_TIMEOUT)
            (deliveries Sample.three_in_time) = head :: rest
    ∧ total_of (message head.2) = Return t
    ∧ 1 ≤ t
    ∧ Z.of_nat (length [Sample.found_nodes 3 [];
                        Sample.found_nodes 3 [Sample.local_enr];
                        Sample.found_nodes 3 []]) = t
    ∧ [Sample.found_nodes 3 []; Sample.found_nodes 3 [Sample.local_enr];
       Sample.found_nodes 3 []]
      = (take (Z.to_nat t) (head :: rest)).*2.
Proof.
  apply (find_nodes_returns_only_total Sample.seven Sample.endpoint Sample.peer
           Sample.three_in_time [256]).
  vm_compute. reflexivity.
Defined.

Lemma find_nodes_consumes_total_witness :
  deliveries
    (Client.find_nodes Sample.seven Sample.endpoint Sample.peer [256]
       Sample.two_and_one_more).2
  = [(3, Sample.found_nodes 9 [])].
Proof.
  apply (find_nodes_consumes_total Sample.seven Sample.endpoint Sample.peer
           Sample.two_and_one_more [256]
           (1, Sample.found_nodes 2 [])
           [(2, Sample.found_nodes 2 [Sample.local_enr]);
            (3, Sample.found_nodes 9 [])] 2).
  - reflexivity.
  - reflexivity.
  - lia.
  - simpl. lia.
Defined.

Lemma ping_returns_first_response_witness :
  (Client.ping Sample.seven Sample.endpoint Sample.peer Sample.three_in_time).1
  = Return (Sample.found_nodes 3 []).
Proof.
  apply (ping_returns_first_response Sample.seven Sample.endpoint Sample.peer
           Sample.three_in_time (1, Sample.found_nodes 3 [])
           [(2, Sample.found_nodes 3 [Sample.local_enr]);
            (3, Sample.found_nodes 3 [])]).
  reflexivity.
Defined.

Lemma request_response_leaves_no_trace_witness :
  reserved_request_ids
    (Client.find_nodes Sample.seven Sample.endpoint Sample.peer [256]
       Sample.third_late).2 = ∅
  ∧ subscriptions
      (Client.find_nodes Sample.seven Sample.endpoint Sample.peer [256]
         Sample.third_late).2 = ∅.
Proof.
  destruct (request_response_leaves_no_trace Sample.seven Sample.endpoint
              Sample.peer Sample.third_late [256]) as (_ & _ & Hr & Hs).
  - apply not_elem_of_empty.
  - intros cls. apply not_elem_of_empty.
  - split; [exact Hr|exact Hs].
Defined.

Lemma find_nodes_negative_total_witness :
  (Client.find_nodes Sample.seven Sample.endpoint Sample.peer [256]
     Sample.total_negative).1
  = Raise (Exception "Invalid `total` counter in response").
Proof.
  apply (find_nodes_negative_total Sample.seven Sample.endpoint Sample.peer
           Sample.total_negative [256] (1, Sample.found_nodes (-1) []) [] (-1)).
  - reflexivity.
  - reflexivity.
  - lia.
Defined.

Lemma reserved_request_id_is_released_witness :
  only_sends
    (Client.send_find_nodes Sample.seven Sample.endpoint Sample.peer [255; 256]
       None) 7
    (mkOutbound (FindNodeMessage 7 [255; 256]) Sample.endpoint Sample.peer)
    Sample.silent.
Proof.
  destruct (reserved_request_id_is_released Sample.seven Sample.endpoint
              Sample.peer Sample.silent [255; 256] [] [] [] [] Sample.local_enr)
    as (_ & Hfind & _).
  - apply not_elem_of_empty.
  - exact Hfind.
Defined.

Lemma encoder_then_decoder_round_trip_witness :
  Envelope.inbound_packet_send_channel
    (Envelope.PacketDecoder Sample.decode_any (λ _, "Packet") Sample.peer
       ((λ d : Envelope.OutboundDatagram, (d.1, Sample.sender))
          <$> Envelope.outbound_datagram_send_channel
                (Envelope.PacketEncoder (λ p : bytes, p) (λ _, "Packet")
                   Sample.envelopes (Envelope.mkEncoder [] [])).2)
       (Envelope.mkDecoder [] [])).2
  = [Envelope.mkInboundEnvelope [x01; x02] Sample.sender;
     Envelope.mkInboundEnvelope [] Sample.sender].
Proof.
  assert (Hall : Forall (λ e : Envelope.OutboundEnvelope bytes,
                           Sample.decode_any (Envelope.out_packet e) Sample.peer
                           = Return (Envelope.out_packet e)) Sample.envelopes).
  { repeat constructor. }
  destruct (encoder_then_decoder_round_trip Sample.decode_any (λ p : bytes, p)
              (λ _, "Packet") Sample.peer Sample.envelopes Sample.sender
              (Envelope.mkEncoder [] []) (Envelope.mkDecoder [] []) Hall)
    as [_ Hchan].
  exact Hchan.
Defined.
